(** * hop-js: capability gate and request shapes of the project-scoped SDKs

    A shallow embedding of the registry SDK, the projects SDK, the [Hop]
    constructor and the typed-channels helper.  Asynchronous SDK methods
    are programs over the calls they make on the shared [client]; a method
    either throws locally, or awaits a client call and continues with its
    result. *)

From Stdlib Require Import String Ascii List ZArith Bool Lia.
Import ListNotations.
Open Scope string_scope.
Set Warnings "-register-all".

(** ** JavaScript values *)

Inductive JsVal : Type :=
| JUndefined
| JNull
| JBool (b : bool)
| JNum (n : Z)
| JStr (s : string)
| JArr (xs : list JsVal)
| JObj (fields : list (string * JsVal)).

(** An object literal [{k1: v1, k2: v2}], keys in the order written. *)
Definition Params := list (string * JsVal).

Fixpoint assoc {V : Type} (k : string) (o : list (string * V)) : option V :=
  match o with
  | [] => None
  | (k', v) :: rest => if String.eqb k k' then Some v else assoc k rest
  end.

(** An optional string parameter ([project?: Id<'project'>]) is a string or
    [undefined]. *)
Definition js_opt (p : option string) : JsVal :=
  match p with
  | Some s => JStr s
  | None => JUndefined
  end.

Definition js_strings (xs : list string) : JsVal := JArr (map JStr xs).

Definition js_opt_strings (xs : option (list string)) : JsVal :=
  match xs with
  | Some l => js_strings l
  | None => JUndefined
  end.

(** JavaScript truthiness of [string | undefined]: [undefined] and the
    empty string are falsy. *)
Definition truthy (p : option string) : bool :=
  match p with
  | Some s => negb (String.eqb s "")
  | None => false
  end.

(** ** Thrown values and results *)

Inductive Exn : Type :=
| Error (message : string)
| TypeError
| ZodError
| InvalidCredential
| ContractViolation (placeholder : string)
| NetworkError
| APIError (status : Z) (payload : JsVal)
| DecodeError.

Inductive Result (A : Type) : Type :=
| Ok (a : A)
| Err (e : Exn).
Arguments Ok {A} a.
Arguments Err {A} e.

(** ** Asynchronous programs over a set of calls *)

Inductive Prog (Call A : Type) : Type :=
| Return (a : A)
| Throw (e : Exn)
| Await (c : Call) (k : JsVal -> Prog Call A).
Arguments Return {Call A} a.
Arguments Throw {Call A} e.
Arguments Await {Call A} c k.

Fixpoint bind {Call A B : Type} (p : Prog Call A) (f : A -> Prog Call B)
  : Prog Call B :=
  match p with
  | Return a => f a
  | Throw e => Throw e
  | Await c k => Await c (fun v => bind (k v) f)
  end.

Notation "x <- c ;; k" := (bind c (fun x => k))
  (at level 61, c at next level, right associativity).

Definition await {Call : Type} (c : Call) : Prog Call JsVal := Await c Return.

Definition lift {Call A : Type} (r : Result A) : Prog Call A :=
  match r with
  | Ok a => Return a
  | Err e => Throw e
  end.

(** [const {f} = v]: reading an own field of the awaited value.  Reading a
    property of [undefined] or [null] throws a TypeError; an object without
    the field, or a primitive, yields [undefined].  (None of the field names
    the SDKs read is a property inherited from a prototype.) *)
Definition destructure {Call : Type} (v : JsVal) (f : string)
  : Prog Call JsVal :=
  match v with
  | JUndefined | JNull => Throw TypeError
  | JObj fields =>
      Return (match assoc f fields with Some x => x | None => JUndefined end)
  | _ => Return JUndefined
  end.

(** Running a program against a handler for its calls: the calls made, in
    order, and the outcome.  A rejected call is rethrown by [await]. *)
Fixpoint exec {Call A : Type} (h : Call -> Result JsVal) (p : Prog Call A)
  : list Call * Result A :=
  match p with
  | Return a => ([], Ok a)
  | Throw e => ([], Err e)
  | Await c k =>
      match h c with
      | Ok v => let '(t, r) := exec h (k v) in (c :: t, r)
      | Err e => ([c], Err e)
      end
  end.

(** The call a program is suspended on, if any. *)
Definition dispatched {Call A : Type} (p : Prog Call A) : option Call :=
  match p with
  | Await c _ => Some c
  | _ => None
  end.

(** ** The client *)

Inductive AuthType : Type := ptk | pat | bearer.

Definition AuthType_eqb (a b : AuthType) : bool :=
  match a, b with
  | ptk, ptk | pat, pat | bearer, bearer => true
  | _, _ => false
  end.

Inductive Method : Type := GET | POST | PUT | PATCH | DELETE.

(** A URL by its components. *)
Record URL : Type := mkURL {
  origin : string;
  pathname : list string;
  searchParams : list (string * string)
}.

(** [new Request(url, {headers, body, method})]. *)
Record Request : Type := mkRequest {
  req_url : URL;
  req_headers : list (string * string);
  req_body : option string;
  req_method : Method
}.

Record APIClientOptions : Type := mkOptions {
  authentication : string;
  baseUrl : string
}.

(** The part of [APIClient] the SDKs read: its [authType], its [options]
    and the pure [url] builder. *)
Record APIClient : Type := mkClient {
  options : APIClientOptions;
  authType : AuthType;
  url : string -> Params -> Result URL
}.

(** The asynchronous methods of the client.  [client_raw] carries the
    endpoint named by its type argument. *)
Inductive ClientCall : Type :=
| client_get (path : string) (query : Params)
| client_post (path : string) (body : JsVal) (query : Params)
| client_patch (path : string) (body : JsVal) (query : Params)
| client_delete (path : string) (body : JsVal) (query : Params)
| client_raw (endpoint : Method * string) (request : Request).

Definition SDK := Prog ClientCall JsVal.

(** ** Registry SDK *)

Module images.
Section WithClient.
Variable client : APIClient.

Definition getAll (project : option string) : SDK :=
  if negb (truthy project) && negb (AuthType_eqb (authType client) ptk)
  then Throw (Error "Project is required when using a PAT or bearer")
  else
    r <- await (client_get "/v1/registry/images"
                  [("project", js_opt project)]) ;;
    images <- destructure r "images" ;;
    Return images.

Definition getManifest (image : string) (project : option string) : SDK :=
  if negb (truthy project) && negb (AuthType_eqb (authType client) ptk)
  then Throw (Error "Project is required when using a PAT or bearer")
  else
    r <- await (client_get "/v1/registry/images/:image/manifests"
                  [("image", JStr image); ("project", js_opt project)]) ;;
    manifests <- destructure r "manifests" ;;
    Return manifests.

Definition delete (image : string) (project : option string) : SDK :=
  if negb (truthy project) && negb (AuthType_eqb (authType client) ptk)
  then Throw (Error "Project is required when using a PAT or bearer")
  else
    _ <- await (client_delete "/v1/registry/images/:image" JUndefined
                  [("image", JStr image); ("project", js_opt project)]) ;;
    Return JUndefined.
End WithClient.
End images.

(** ** Projects SDK: project tokens *)

Module tokens.
Section WithClient.
Variable client : APIClient.

Definition delete (projectTokenId : string) (project : option string)
  : SDK :=
  if negb (AuthType_eqb (authType client) ptk) && negb (truthy project)
  then Throw (Error
    "Project ID is required for bearer or PAT authentication to delete a project token")
  else
    _ <- await (client_delete
                  (if truthy project
                   then "/v1/projects/:project_id/tokens/:project_token_id"
                   else "/v1/projects/@this/tokens/:project_token_id")
                  JUndefined
                  (if truthy project
                   then [("project_id", js_opt project);
                         ("project_token_id", JStr projectTokenId)]
                   else [("project_token_id", JStr projectTokenId)])) ;;
    Return JUndefined.

Definition get (projectId : option string) : SDK :=
  if negb (AuthType_eqb (authType client) ptk) && negb (truthy projectId)
  then Throw (Error
    "Project ID is required for bearer or PAT authentication")
  else if negb (truthy projectId) then
    r <- await (client_get "/v1/projects/@this/tokens" []) ;;
    keys <- destructure r "project_tokens" ;;
    Return keys
  else
    r <- await (client_get "/v1/projects/:project_id/tokens"
                  [("project_id", js_opt projectId)]) ;;
    keys <- destructure r "project_tokens" ;;
    Return keys.

Definition create (flags : Z) (projectId : option string) : SDK :=
  if negb (truthy projectId) && negb (AuthType_eqb (authType client) ptk)
  then Throw (Error
    "Project ID is required for bearer or PAT authentication to create a project token")
  else if negb (truthy projectId) then
    r <- await (client_post "/v1/projects/@this/tokens"
                  (JObj [("flags", JNum flags)]) []) ;;
    token <- destructure r "project_token" ;;
    Return token
  else
    r <- await (client_post "/v1/projects/:project_id/tokens"
                  (JObj [("flags", JNum flags)])
                  [("project_id", js_opt projectId)]) ;;
    token <- destructure r "project_token" ;;
    Return token.
End WithClient.
End tokens.

(** ** Projects SDK: webhooks *)

Module webhooks.
Section WithClient.
Variable client : APIClient.

Definition get (projectId : option string) : SDK :=
  if negb (AuthType_eqb (authType client) ptk) && negb (truthy projectId)
  then Throw (Error
    "Project ID is required for bearer or PAT authentication to fetch all project members")
  else if truthy projectId then
    r <- await (client_get "/v1/projects/:project_id/webhooks"
                  [("project_id", js_opt projectId)]) ;;
    webhooks <- destructure r "webhooks" ;;
    Return webhooks
  else
    r <- await (client_get "/v1/projects/@this/webhooks" []) ;;
    webhooks <- destructure r "webhooks" ;;
    Return webhooks.

Definition create (webhook_url : string) (events : list string)
           (projectId : option string) : SDK :=
  if negb (AuthType_eqb (authType client) ptk) && negb (truthy projectId)
  then Throw (Error
    "Project ID is required for bearer or PAT authentication to create a webhook")
  else if truthy projectId then
    r <- await (client_post "/v1/projects/:project_id/webhooks"
                  (JObj [("webhook_url", JStr webhook_url);
                         ("events", js_strings events)])
                  [("project_id", js_opt projectId)]) ;;
    webhook <- destructure r "webhook" ;;
    Return webhook
  else
    r <- await (client_post "/v1/projects/@this/webhooks"
                  (JObj [("webhook_url", JStr webhook_url);
                         ("events", js_strings events)])
                  []) ;;
    webhook <- destructure r "webhook" ;;
    Return webhook.

Definition edit (webhookId : string) (webhookUrl : option string)
           (events : option (list string)) (projectId : option string)
  : SDK :=
  if negb (AuthType_eqb (authType client) ptk) && negb (truthy projectId)
  then Throw (Error
    "Project ID is required for bearer or PAT authentication to edit a webhook")
  else if truthy projectId then
    r <- await (client_patch "/v1/projects/:project_id/webhooks/:webhook_id"
                  (JObj [("webhook_url", js_opt webhookUrl);
                         ("events", js_opt_strings events)])
                  [("project_id", js_opt projectId);
                   ("webhook_id", JStr webhookId)]) ;;
    webhook <- destructure r "webhook" ;;
    Return webhook
  else
    r <- await (client_patch "/v1/projects/@this/webhooks/:webhook_id"
                  (JObj [("webhook_url", js_opt webhookUrl);
                         ("events", js_opt_strings events)])
                  [("webhook_id", JStr webhookId)]) ;;
    webhook <- destructure r "webhook" ;;
    Return webhook.

Definition delete (webhookId : string) (projectId : option string) : SDK :=
  if negb (AuthType_eqb (authType client) ptk) && negb (truthy projectId)
  then Throw (Error
    "Project ID is required for bearer or PAT authentication to delete a webhook")
  else if truthy projectId then
    _ <- await (client_delete "/v1/projects/:project_id/webhooks/:webhook_id"
                  JUndefined
                  [("project_id", js_opt projectId);
                   ("webhook_id", JStr webhookId)]) ;;
    Return JUndefined
  else
    _ <- await (client_delete "/v1/projects/@this/webhooks/:webhook_id"
                  JUndefined
                  [("webhook_id", JStr webhookId)]) ;;
    Return JUndefined.

Definition regenerateSecret (webhookId : string) (projectId : option string)
  : SDK :=
  if negb (AuthType_eqb (authType client) ptk) && negb (truthy projectId)
  then Throw (Error
    "Project ID is required for bearer or PAT authentication to regenerate a webhook secret")
  else if truthy projectId then
    r <- await (client_post
                  "/v1/projects/:project_id/webhooks/:webhook_id/regenerate"
                  JUndefined
                  [("project_id", js_opt projectId);
                   ("webhook_id", JStr webhookId)]) ;;
    secret <- destructure r "secret" ;;
    Return secret
  else
    r <- await (client_post
                  "/v1/projects/@this/webhooks/:webhook_id/regenerate"
                  JUndefined
                  [("webhook_id", JStr webhookId)]) ;;
    secret <- destructure r "secret" ;;
    Return secret.
End WithClient.
End webhooks.

(** ** Projects SDK: secrets *)

Module secrets.
Section WithClient.
Variable client : APIClient.

Definition getAll (projectId : option string) : SDK :=
  if negb (AuthType_eqb (authType client) ptk) && negb (truthy projectId)
  then Throw (Error
    "Project ID is required for bearer or PAT authentication to fetch all secrets")
  else if negb (truthy projectId) then
    r <- await (client_get "/v1/projects/@this/secrets" []) ;;
    secrets <- destructure r "secrets" ;;
    Return secrets
  else
    r <- await (client_get "/v1/projects/:project_id/secrets"
                  [("project_id", js_opt projectId)]) ;;
    secrets <- destructure r "secrets" ;;
    Return secrets.

Definition create (name value : string) (projectId : option string) : SDK :=
  if negb (AuthType_eqb (authType client) ptk) && negb (truthy projectId)
  then Throw (Error
    "Project ID is required for bearer or PAT authentication to create a secret")
  else
    u <- lift (url client "/v1/projects/@this/secrets/:name"
                 [("name", JStr name); ("project", js_opt projectId)]) ;;
    let request :=
      {| req_url := u;
         req_headers := [("Content-Type", "text/plain")];
         req_body := Some value;
         req_method := PUT |} in
    r <- await (client_raw (PUT, "/v1/projects/@this/secrets/:name")
                  request) ;;
    secret <- destructure r "secret" ;;
    Return secret.

Definition delete (id : string) (projectId : option string) : SDK :=
  if negb (AuthType_eqb (authType client) ptk) && negb (truthy projectId)
  then Throw (Error
    "Project ID is required for bearer or PAT authentication to delete a secret")
  else if negb (truthy projectId) then
    _ <- await (client_delete "/v1/projects/@this/secrets/:secret_id"
                  JUndefined
                  [("secret_id", JStr id)]) ;;
    Return JUndefined
  else
    _ <- await (client_delete "/v1/projects/:project_id/secrets/:secret_id"
                  JUndefined
                  [("secret_id", JStr id);
                   ("project_id", js_opt projectId)]) ;;
    Return JUndefined.
End WithClient.
End secrets.

(** ** Projects SDK: members, and the SDK object *)

Section ProjectsWithClient.
Variable client : APIClient.

Definition getAllMembers (projectId : option string) : SDK :=
  if negb (AuthType_eqb (authType client) ptk) && negb (truthy projectId)
  then Throw (Error
    "Project ID is required for bearer or PAT authentication to fetch all project members")
  else if truthy projectId then
    r <- await (client_get "/v1/projects/:project_id/members"
                  [("project_id", js_opt projectId)]) ;;
    members <- destructure r "members" ;;
    Return members
  else
    r <- await (client_get "/v1/projects/@this/members" []) ;;
    members <- destructure r "members" ;;
    Return members.

(** The signature asks for a project id; a JavaScript caller may still
    leave it out, hence the option. *)
Definition getCurrentMember (projectId : option string) : SDK :=
  if AuthType_eqb (authType client) ptk
  then Throw (Error
    "You cannot resolve a member from a project token! You must use a bearer or pat token")
  else
    r <- await (client_get "/v1/projects/:project_id/members/@me"
                  [("project_id", js_opt projectId)]) ;;
    member <- destructure r "project_member" ;;
    Return member.
End ProjectsWithClient.

Record TokensSDK : Type := mkTokens {
  tk_delete : string -> option string -> SDK;
  tk_get : option string -> SDK;
  tk_create : Z -> option string -> SDK
}.

Record WebhooksSDK : Type := mkWebhooks {
  wh_get : option string -> SDK;
  wh_create : string -> list string -> option string -> SDK;
  wh_edit : string -> option string -> option (list string) ->
            option string -> SDK;
  wh_delete : string -> option string -> SDK;
  wh_regenerateSecret : string -> option string -> SDK
}.

Record SecretsSDK : Type := mkSecrets {
  sc_getAll : option string -> SDK;
  sc_create : string -> string -> option string -> SDK;
  sc_delete : string -> option string -> SDK
}.

Record ProjectsSDK : Type := mkProjects {
  sdk_getAllMembers : option string -> SDK;
  sdk_getCurrentMember : option string -> SDK;
  projectTokens : TokensSDK;
  tokens : TokensSDK;
  webhooks : WebhooksSDK;
  secrets : SecretsSDK
}.

(** [projects = sdk(client => { const tokens = ...; return projectsSDK })]:
    the two token fields are bound to the one [tokens] object. *)
Definition projects (client : APIClient) : ProjectsSDK :=
  let tokens :=
    {| tk_delete := tokens.delete client;
       tk_get := tokens.get client;
       tk_create := tokens.create client |} in
  let webhooks :=
    {| wh_get := webhooks.get client;
       wh_create := webhooks.create client;
       wh_edit := webhooks.edit client;
       wh_delete := webhooks.delete client;
       wh_regenerateSecret := webhooks.regenerateSecret client |} in
  {| sdk_getAllMembers := getAllMembers client;
     sdk_getCurrentMember := getCurrentMember client;
     projectTokens := tokens;
     tokens := tokens;
     webhooks := webhooks;
     secrets :=
       {| sc_getAll := secrets.getAll client;
          sc_create := secrets.create client;
          sc_delete := secrets.delete client |} |}.

Record RegistrySDK : Type := mkRegistry {
  img_getAll : option string -> SDK;
  img_getManifest : string -> option string -> SDK;
  img_delete : string -> option string -> SDK
}.

Definition registry (client : APIClient) : RegistrySDK :=
  {| img_getAll := images.getAll client;
     img_getManifest := images.getManifest client;
     img_delete := images.delete client |}.

(** ** The operations that take an optional project id *)

Inductive ScopedOp : Type :=
| RegistryImagesGetAll
| RegistryImagesGetManifest (image : string)
| RegistryImagesDelete (image : string)
| TokensDelete (projectTokenId : string)
| TokensGet
| TokensCreate (flags : Z)
| WebhooksGet
| WebhooksCreate (webhook_url : string) (events : list string)
| WebhooksEdit (webhookId : string) (webhookUrl : option string)
               (events : option (list string))
| WebhooksDelete (webhookId : string)
| WebhooksRegenerateSecret (webhookId : string)
| GetAllMembers
| SecretsGetAll
| SecretsCreate (name value : string)
| SecretsDelete (id : string).

(** Calling an operation on the SDK objects built over [client], as
    [hop.registry.images.getAll(project)], [hop.projects.tokens.get(id)]... *)
Definition invoke (client : APIClient) (op : ScopedOp)
           (project : option string) : SDK :=
  match op with
  | RegistryImagesGetAll => img_getAll (registry client) project
  | RegistryImagesGetManifest image =>
      img_getManifest (registry client) image project
  | RegistryImagesDelete image => img_delete (registry client) image project
  | TokensDelete id => tk_delete (tokens (projects client)) id project
  | TokensGet => tk_get (tokens (projects client)) project
  | TokensCreate flags => tk_create (tokens (projects client)) flags project
  | WebhooksGet => wh_get (webhooks (projects client)) project
  | WebhooksCreate u ev => wh_create (webhooks (projects client)) u ev project
  | WebhooksEdit id u ev =>
      wh_edit (webhooks (projects client)) id u ev project
  | WebhooksDelete id => wh_delete (webhooks (projects client)) id project
  | WebhooksRegenerateSecret id =>
      wh_regenerateSecret (webhooks (projects client)) id project
  | GetAllMembers => sdk_getAllMembers (projects client) project
  | SecretsGetAll => sc_getAll (secrets (projects client)) project
  | SecretsCreate name value =>
      sc_create (secrets (projects client)) name value project
  | SecretsDelete id => sc_delete (secrets (projects client)) id project
  end.

(** The operations of the projects SDK that choose between two path
    templates by the presence of the project id. *)
Definition branches_on_project (op : ScopedOp) : bool :=
  match op with
  | RegistryImagesGetAll | RegistryImagesGetManifest _
  | RegistryImagesDelete _ | SecretsCreate _ _ => false
  | _ => true
  end.

(** The operations of the projects SDK, as against the registry SDK. *)
Definition in_projects_sdk (op : ScopedOp) : bool :=
  match op with
  | RegistryImagesGetAll | RegistryImagesGetManifest _
  | RegistryImagesDelete _ => false
  | _ => true
  end.

(** ** Path templates *)

Fixpoint split_on (sep : ascii) (s : string) : list string :=
  match s with
  | EmptyString => [EmptyString]
  | String c rest =>
      if Ascii.eqb c sep then EmptyString :: split_on sep rest
      else match split_on sep rest with
           | [] => [String c EmptyString]
           | seg :: segs => String c seg :: segs
           end
  end.

(** The segments of a path template; the leading "/" gives a first, empty
    segment. *)
Definition segments (path : string) : list string := split_on "/"%char path.

Definition has_segment (seg path : string) : bool :=
  existsb (String.eqb seg) (segments path).

Definition join_path (segs : list string) : string := String.concat "/" segs.

(** The template with "@this" in place of each ":project_id" segment. *)
Definition this_variant (path : string) : string :=
  join_path (map (fun seg => if String.eqb seg ":project_id"
                             then "@this" else seg)
                 (segments path)).

(** The path template and the parameter mapping a call is made with; for
    [client_raw], the template of the endpoint it is typed at (its
    parameters went into the request's URL). *)
Definition call_path (c : ClientCall) : string :=
  match c with
  | client_get p _ | client_post p _ _ | client_patch p _ _
  | client_delete p _ _ => p
  | client_raw (_, p) _ => p
  end.

Definition call_params (c : ClientCall) : Params :=
  match c with
  | client_get _ q | client_post _ _ q | client_patch _ _ q
  | client_delete _ _ q => q
  | client_raw _ _ => []
  end.

Definition call_method (c : ClientCall) : Method :=
  match c with
  | client_get _ _ => GET
  | client_post _ _ _ => POST
  | client_patch _ _ _ => PATCH
  | client_delete _ _ _ => DELETE
  | client_raw (m, _) _ => m
  end.

(** ** The [Hop] constructor *)

(** The options object by the two keys the constructor reads.  A key that
    is left out and a key set to [undefined] are both [None]; they differ
    only in the base URL the client is handed (a [baseUrl] set to
    [undefined] overrides the default), which no property below speaks
    of. *)
Record PartialAPIOptions : Type := mkPartial {
  opt_authentication : option string;
  opt_baseUrl : option string
}.

(** The first argument of [new Hop(...)] as JavaScript can pass it: left
    out, a credential string, or an options object. *)
Inductive HopArg : Type :=
| ArgUndefined
| ArgAuthentication (s : string)
| ArgOptions (o : PartialAPIOptions).

(** The credential string an argument carries, if any. *)
Definition credential_of (a : HopArg) : option string :=
  match a with
  | ArgUndefined => None
  | ArgAuthentication s => Some s
  | ArgOptions o => opt_authentication o
  end.

(** [!!a], [typeof a === 'object'] and [a.authentication]. *)
Definition arg_truthy (a : HopArg) : bool :=
  match a with
  | ArgUndefined => false
  | ArgAuthentication s => truthy (Some s)
  | ArgOptions _ => true
  end.

Definition is_object (a : HopArg) : bool :=
  match a with
  | ArgOptions _ => true
  | _ => false
  end.

Definition arg_authentication (a : HopArg) : option string :=
  match a with
  | ArgOptions o => opt_authentication o
  | _ => None
  end.

Record Hop : Type := mkHop {
  hop_client : APIClient;
  hop_projects : ProjectsSDK;
  hop_registry : RegistrySDK
}.

Section Construction.
(** [DEFAULT_BASE_URL] of util/index.js. *)
Variable DEFAULT_BASE_URL : string.

(** Modelled from the spec: the credential classifier run by the
    [APIClient] constructor (rest/client.js is not among the sources).
    [None] is the spec's "not recognized as any supported form". *)
Variable classify : string -> option AuthType.

(** The [url] method of the client under construction. *)
Variable url_builder : string -> string -> Params -> Result URL.

(** Modelled from the spec: [new APIClient(options)].  The kind is
    determined once, at construction, from the credential string;
    construction fails with [InvalidCredential] when it is not
    recognized. *)
Definition APIClient_new (o : APIClientOptions) : Result APIClient :=
  match classify (authentication o) with
  | Some kind =>
      Ok {| options := o; authType := kind; url := url_builder (baseUrl o) |}
  | None => Err InvalidCredential
  end.

Definition Hop_new (authenticationOrOptions : HopArg)
           (baseUrl : option string) : Result Hop :=
  let baseUrl := match baseUrl with
                 | Some b => b
                 | None => DEFAULT_BASE_URL
                 end in
  if negb (arg_truthy authenticationOrOptions)
     || (is_object authenticationOrOptions
         && negb (truthy (arg_authentication authenticationOrOptions)))
  then Err (Error
    "Missing authentication token to `new Hop()` — please provide a valid Project Token, User Bearer or Personal Access Token")
  else
    match APIClient_new
            (match authenticationOrOptions with
             | ArgOptions o =>
                 (* {baseUrl: DEFAULT_BASE_URL, ...authenticationOrOptions} *)
                 {| authentication :=
                      match opt_authentication o with
                      | Some s => s
                      | None => ""
                      end;
                    baseUrl := match opt_baseUrl o with
                               | Some b => b
                               | None => DEFAULT_BASE_URL
                               end |}
             | ArgAuthentication s =>
                 {| authentication := s; baseUrl := baseUrl |}
             | ArgUndefined =>
                 {| authentication := ""; baseUrl := baseUrl |}
             end)
    with
    | Ok client =>
        Ok {| hop_client := client;
              hop_projects := projects client;
              hop_registry := registry client |}
    | Err e => Err e
    end.
End Construction.

(** ** Typed channels *)

(** The methods of [hop.channels] the typed client forwards to. *)
Inductive ChannelsCall : Type :=
| channels_publishMessage (channel event : string) (data : JsVal)
| channels_delete (channel : string)
| channels_subscribeTokens (channel : string) (tokens : list string)
| channels_setState (channel : string) (state : JsVal)
| channels_patchState (channel : string) (state : JsVal).

Inductive ChannelsMethod : Type :=
| publishMessage_m | delete_m | subscribeTokens_m | setState_m | patchState_m.

Definition method_of (c : ChannelsCall) : ChannelsMethod :=
  match c with
  | channels_publishMessage _ _ _ => publishMessage_m
  | channels_delete _ => delete_m
  | channels_subscribeTokens _ _ => subscribeTokens_m
  | channels_setState _ _ => setState_m
  | channels_patchState _ _ => patchState_m
  end.

Definition payload_of (c : ChannelsCall) : option JsVal :=
  match c with
  | channels_publishMessage _ _ d => Some d
  | channels_setState _ s | channels_patchState _ s => Some s
  | _ => None
  end.

(** A zod schema: [parseAsync] resolves to the parsed value or rejects. *)
Record Schema : Type := mkSchema {
  parseAsync : JsVal -> Result JsVal
}.

(** A zod object schema, with the schema [partial()] returns. *)
Record ZodObject : Type := mkZodObject {
  object_schema : Schema;
  partial : Schema
}.

Record StateClientDefinition : Type := mkStateDef {
  schema : option ZodObject
}.

Record EventsClientDefinition : Type := mkEventsDef {
  schemas : option (list (string * Schema))
}.

(** The members an object literal inherits from [Object.prototype].  A
    property read finds them when the object has no key of that name of
    its own; each is truthy. *)
Definition Object_prototype_members : list string :=
  [ "constructor"; "toString"; "toLocaleString"; "valueOf";
    "hasOwnProperty"; "isPrototypeOf"; "propertyIsEnumerable";
    "__proto__"; "__defineGetter__"; "__defineSetter__";
    "__lookupGetter__"; "__lookupSetter__" ].

(** What such a member is when used as a schema: it has no [parseAsync],
    so calling it throws a TypeError. *)
Definition not_a_schema : Schema :=
  {| parseAsync := fun _ => Err TypeError |}.

Module unstable_typedChannelsClient.
Section Create.
Variable stateDefinition : StateClientDefinition.
Variable eventsDefinition : EventsClientDefinition.
Variable channel : string.

(** [eventsDefinition.schemas?.[event]]: the schema listed under the
    event's name, else the inherited member of that name, else
    [undefined]. *)
Definition event_schema (event : string) : option Schema :=
  match schemas eventsDefinition with
  | Some m =>
      match assoc event m with
      | Some s => Some s
      | None =>
          if existsb (String.eqb event) Object_prototype_members
          then Some not_a_schema
          else None
      end
  | None => None
  end.

Definition publish (event : string) (data : JsVal)
  : Prog ChannelsCall JsVal :=
  match event_schema event with
  | Some s =>
      parsed <- lift (parseAsync s data) ;;
      await (channels_publishMessage channel event parsed)
  | None => await (channels_publishMessage channel event data)
  end.

Definition delete : Prog ChannelsCall JsVal :=
  await (channels_delete channel).

Definition subscribeTokens (tokens : list string)
  : Prog ChannelsCall JsVal :=
  await (channels_subscribeTokens channel tokens).

Definition setState (state : JsVal) : Prog ChannelsCall JsVal :=
  match schema stateDefinition with
  | Some s =>
      parsed <- lift (parseAsync (object_schema s) state) ;;
      await (channels_setState channel parsed)
  | None => await (channels_setState channel state)
  end.

Definition patchState (state : JsVal) : Prog ChannelsCall JsVal :=
  match schema stateDefinition with
  | Some s =>
      parsed <- lift (parseAsync (partial s) state) ;;
      await (channels_setState channel parsed)
  | None => await (channels_patchState channel state)
  end.
End Create.

Definition state (schema : option ZodObject) : StateClientDefinition :=
  {| schema := schema |}.

Definition events (schemas : option (list (string * Schema)))
  : EventsClientDefinition :=
  {| schemas := schemas |}.
End unstable_typedChannelsClient.

(** ** The request dispatcher *)

(** The dispatcher of rest/client.js is not among the sources; this module
    follows sections 3, 4.3 and 6 of the specification. *)
Module Dispatcher.

(** Modelled from the spec: the placeholders of a path template, which
    rest/client.js resolves.  A segment [:name] is a placeholder. *)
Definition placeholder_name (seg : string) : option string :=
  match seg with
  | String c name => if Ascii.eqb c ":"%char then Some name else None
  | EmptyString => None
  end.

(** Modelled from the spec: the placeholder names of a template, in order
    of appearance. *)
Definition placeholders (template : string) : list string :=
  flat_map (fun seg => match placeholder_name seg with
                       | Some n => [n]
                       | None => []
                       end)
           (segments template).

(** Modelled from the spec: the text of a parameter value of
    rest/client.js; [undefined] has none.  The SDKs pass strings and
    [undefined] only. *)
Definition param_text (v : JsVal) : option string :=
  match v with
  | JStr s => Some s
  | JBool true => Some "true"
  | JBool false => Some "false"
  | _ => None
  end.

(** Modelled from the spec: placeholder resolution of rest/client.js.  Each
    placeholder is resolved against the mapping; a placeholder with no
    value fails. *)
Fixpoint resolve (segs : list string) (params : Params)
  : Result (list string) :=
  match segs with
  | [] => Ok []
  | seg :: rest =>
      match placeholder_name seg with
      | Some name =>
          match assoc name params with
          | Some v =>
              match param_text v with
              | Some t =>
                  match resolve rest params with
                  | Ok l => Ok (t :: l)
                  | Err e => Err e
                  end
              | None => Err (ContractViolation name)
              end
          | None => Err (ContractViolation name)
          end
      | None =>
          match resolve rest params with
          | Ok l => Ok (seg :: l)
          | Err e => Err e
          end
      end
  end.

(** Modelled from the spec: the query string of rest/client.js.  The
    remaining entries become query parameters; entries without a value
    are left out. *)
Fixpoint query_of (used : list string) (params : Params)
  : list (string * string) :=
  match params with
  | [] => []
  | (k, v) :: rest =>
      if existsb (String.eqb k) used then query_of used rest
      else match param_text v with
           | Some t => (k, t) :: query_of used rest
           | None => query_of used rest
           end
  end.

(** Modelled from the spec: [client.url] of rest/client.js. *)
Definition build_url (base template : string) (params : Params)
  : Result URL :=
  match resolve (tl (segments template)) params with
  | Ok segs =>
      Ok {| origin := base;
            pathname := segs;
            searchParams := query_of (placeholders template) params |}
  | Err e => Err e
  end.

(** Modelled from the spec: the [Endpoints] declaration of rest/index.ts,
    the expected response shape of each endpoint descriptor.  The fields
    are those the call sites read, which the type checker accepts only of
    a declared field. *)
Definition Endpoints : list (Method * string * list string) :=
  [ (GET, "/v1/registry/images", ["images"]);
    (GET, "/v1/registry/images/:image/manifests", ["manifests"]);
    (DELETE, "/v1/registry/images/:image", []);
    (DELETE, "/v1/projects/:project_id/tokens/:project_token_id", []);
    (DELETE, "/v1/projects/@this/tokens/:project_token_id", []);
    (GET, "/v1/projects/@this/tokens", ["project_tokens"]);
    (GET, "/v1/projects/:project_id/tokens", ["project_tokens"]);
    (POST, "/v1/projects/@this/tokens", ["project_token"]);
    (POST, "/v1/projects/:project_id/tokens", ["project_token"]);
    (GET, "/v1/projects/:project_id/webhooks", ["webhooks"]);
    (GET, "/v1/projects/@this/webhooks", ["webhooks"]);
    (POST, "/v1/projects/:project_id/webhooks", ["webhook"]);
    (POST, "/v1/projects/@this/webhooks", ["webhook"]);
    (PATCH, "/v1/projects/:project_id/webhooks/:webhook_id", ["webhook"]);
    (PATCH, "/v1/projects/@this/webhooks/:webhook_id", ["webhook"]);
    (DELETE, "/v1/projects/:project_id/webhooks/:webhook_id", []);
    (DELETE, "/v1/projects/@this/webhooks/:webhook_id", []);
    (POST, "/v1/projects/:project_id/webhooks/:webhook_id/regenerate",
     ["secret"]);
    (POST, "/v1/projects/@this/webhooks/:webhook_id/regenerate", ["secret"]);
    (GET, "/v1/projects/:project_id/members", ["members"]);
    (GET, "/v1/projects/@this/members", ["members"]);
    (GET, "/v1/projects/:project_id/members/@me", ["project_member"]);
    (GET, "/v1/projects/@this/secrets", ["secrets"]);
    (GET, "/v1/projects/:project_id/secrets", ["secrets"]);
    (PUT, "/v1/projects/@this/secrets/:name", ["secret"]);
    (DELETE, "/v1/projects/@this/secrets/:secret_id", []);
    (DELETE, "/v1/projects/:project_id/secrets/:secret_id", []) ].

Definition Method_eqb (a b : Method) : bool :=
  match a, b with
  | GET, GET | POST, POST | PUT, PUT | PATCH, PATCH | DELETE, DELETE => true
  | _, _ => false
  end.

Fixpoint shape_in (table : list (Method * string * list string))
         (m : Method) (path : string) : list string :=
  match table with
  | [] => []
  | (m', p', shape) :: rest =>
      if Method_eqb m m' && String.eqb path p' then shape
      else shape_in rest m path
  end.

(** Modelled from the spec: the response shape of the endpoint descriptor
    selected by method and path template. *)
Definition response_shape (m : Method) (path : string) : list string :=
  shape_in Endpoints m path.

(** Modelled from the spec: presence of a declared field in the envelope
    rest/client.js decodes. *)
Definition has_field (env : JsVal) (f : string) : bool :=
  match env with
  | JObj fields => match assoc f fields with Some _ => true | None => false end
  | _ => false
  end.

(** Modelled from the spec: what the transport under rest/client.js gives
    back, a transport-level failure or a response with its parsed JSON. *)
Inductive TransportResult : Type :=
| TransportFailure
| HttpResponse (status : Z) (json : option JsVal).

(** Modelled from the spec: a success is a 2xx status. *)
Definition is_success (status : Z) : bool :=
  (200 <=? status)%Z && (status <? 300)%Z.

(** Modelled from the spec: response decoding of rest/client.js.  A success
    is returned at the declared shape; an envelope without a declared
    field is a decode failure. *)
Definition decode (shape : list string) (json : option JsVal)
  : Result JsVal :=
  match shape, json with
  | [], Some env => Ok env
  | [], None => Ok JUndefined
  | _ :: _, Some env =>
      if forallb (has_field env) shape then Ok env else Err DecodeError
  | _ :: _, None => Err DecodeError
  end.

Definition error_payload (json : option JsVal) : JsVal :=
  match json with
  | Some v => v
  | None => JUndefined
  end.

(** Modelled from the spec: the outcome of a round trip of rest/client.js:
    [NetworkError], [APIError] with the status, or the decoded envelope. *)
Definition receive (shape : list string) (t : TransportResult)
  : Result JsVal :=
  match t with
  | TransportFailure => Err NetworkError
  | HttpResponse status json =>
      if is_success status then decode shape json
      else Err (APIError status (error_payload json))
  end.

Section RoundTrip.
(** The header scheme of each credential kind, and the JSON encoder. *)
Variable auth_header : AuthType -> string -> string * string.
Variable stringify : JsVal -> string.
Variable transport : Request -> TransportResult.
Variable client : APIClient.

(** Modelled from the spec: the one authentication header rest/client.js
    attaches, chosen by the credential kind. *)
Definition authorize (r : Request) : Request :=
  {| req_url := req_url r;
     req_headers :=
       auth_header (authType client) (authentication (options client))
         :: req_headers r;
     req_body := req_body r;
     req_method := req_method r |}.

(** Modelled from the spec: the request of rest/client.js for a
    structured payload, JSON-encoded. *)
Definition json_request (m : Method) (path : string) (body : JsVal)
           (query : Params) : Result Request :=
  match url client path query with
  | Ok u =>
      Ok (authorize
            {| req_url := u;
               req_headers :=
                 match body with
                 | JUndefined => []
                 | _ => [("Content-Type", "application/json")]
                 end;
               req_body :=
                 match body with
                 | JUndefined => None
                 | _ => Some (stringify body)
                 end;
               req_method := m |})
  | Err e => Err e
  end.

(** Modelled from the spec: the request a call on rest/client.js puts on
    the wire, if it gets that far. *)
Definition outgoing (c : ClientCall) : Result Request :=
  match c with
  | client_get p q => json_request GET p JUndefined q
  | client_post p b q => json_request POST p b q
  | client_patch p b q => json_request PATCH p b q
  | client_delete p b q => json_request DELETE p b q
  | client_raw _ r => Ok (authorize r)
  end.

(** Modelled from the spec: [client.get], [post], [patch], [delete] and
    [raw] of rest/client.js, one round trip per call. *)
Definition dispatch (c : ClientCall) : Result JsVal :=
  match outgoing c with
  | Ok req =>
      receive (response_shape (call_method c) (call_path c))
              (transport req)
  | Err e => Err e
  end.
End RoundTrip.

(** Modelled from the spec: the client [new APIClient] of rest/client.js
    builds for a classified credential. *)
Definition client_of (kind : AuthType) (o : APIClientOptions) : APIClient :=
  {| options := o; authType := kind; url := build_url (baseUrl o) |}.

(** Modelled from the spec: a classifier by prefix for rest/client.js; the
    specification names the prefixes of project tokens and bearer tokens
    and leaves the third open. *)
Definition classify_by_prefix (pat_prefix : string) (secret : string)
  : option AuthType :=
  if String.prefix "ptk_" secret then Some ptk
  else if String.prefix "bearer_" secret then Some bearer
  else if String.prefix pat_prefix secret then Some pat
  else None.

End Dispatcher.

(** ** Every operation of the two SDKs *)

Inductive Op : Type :=
| Scoped (op : ScopedOp)
| GetCurrentMember.

Definition call_op (client : APIClient) (op : Op) (project : option string)
  : SDK :=
  match op with
  | Scoped op => invoke client op project
  | GetCurrentMember => sdk_getCurrentMember (projects client) project
  end.

(** The field of the response an operation reads and returns. *)
Definition expected_field (op : Op) : option string :=
  match op with
  | Scoped RegistryImagesGetAll => Some "images"
  | Scoped (RegistryImagesGetManifest _) => Some "manifests"
  | Scoped TokensGet => Some "project_tokens"
  | Scoped (TokensCreate _) => Some "project_token"
  | Scoped WebhooksGet => Some "webhooks"
  | Scoped (WebhooksCreate _ _) => Some "webhook"
  | Scoped (WebhooksEdit _ _ _) => Some "webhook"
  | Scoped (WebhooksRegenerateSecret _) => Some "secret"
  | Scoped GetAllMembers => Some "members"
  | Scoped SecretsGetAll => Some "secrets"
  | Scoped (SecretsCreate _ _) => Some "secret"
  | GetCurrentMember => Some "project_member"
  | Scoped (RegistryImagesDelete _) | Scoped (TokensDelete _)
  | Scoped (WebhooksDelete _) | Scoped (SecretsDelete _) => None
  end.

(** The one step of [secrets.create] between the gate and the request:
    [client.url] has to resolve the template. *)
Definition url_resolves (client : APIClient) (op : ScopedOp)
           (project : option string) : Prop :=
  match op with
  | SecretsCreate name _ =>
      exists u, url client "/v1/projects/@this/secrets/:name"
                  [("name", JStr name); ("project", js_opt project)] = Ok u
  | _ => True
  end.


(** ** JSON text of a string *)

Definition hex_digit (n : nat) : ascii :=
  match n with
  | 0 => "0" | 1 => "1" | 2 => "2" | 3 => "3" | 4 => "4" | 5 => "5"
  | 6 => "6" | 7 => "7" | 8 => "8" | 9 => "9" | 10 => "a" | 11 => "b"
  | 12 => "c" | 13 => "d" | 14 => "e" | _ => "f"
  end%char.

Definition backslash : ascii := "092"%char.
Definition quote : ascii := "034"%char.

(** [JSON.stringify] escapes the quote, the backslash and the control
    characters. *)
Definition escape_char (c : ascii) : string :=
  let n := nat_of_ascii c in
  if Nat.eqb n 34 then String backslash (String quote "")
  else if Nat.eqb n 92 then String backslash (String backslash "")
  else if Nat.eqb n 8 then String backslash "b"
  else if Nat.eqb n 9 then String backslash "t"
  else if Nat.eqb n 10 then String backslash "n"
  else if Nat.eqb n 12 then String backslash "f"
  else if Nat.eqb n 13 then String backslash "r"
  else if Nat.ltb n 32
       then String backslash
              (String "u" (String "0" (String "0"
                 (String (hex_digit (Nat.div n 16))
                    (String (hex_digit (Nat.modulo n 16)) "")))))
  else String c "".

Fixpoint escape (s : string) : string :=
  match s with
  | EmptyString => EmptyString
  | String c rest => escape_char c ++ escape rest
  end.

(** [JSON.stringify(s)] for a string [s]. *)
Definition JSON_stringify_string (s : string) : string :=
  String quote (escape s ++ String quote "").

(** ** Sample clients *)

Definition sample_options (secret : string) : APIClientOptions :=
  {| authentication := secret; baseUrl := "https://api.hop.io" |}.

Definition bearer_client : APIClient :=
  Dispatcher.client_of bearer (sample_options "bearer_xyz").

Definition ptk_client : APIClient :=
  Dispatcher.client_of ptk (sample_options "ptk_abc123").

Definition sample_secret_url : URL :=
  {| origin := "https://api.hop.io";
     pathname := ["v1"; "projects"; "@this"; "secrets"; "API_KEY"];
     searchParams := [("project", "project_123")] |}.

(** ** Sample schemas *)

Definition accept_all : Schema := {| parseAsync := fun v => Ok v |}.

Definition sample_state_schema : ZodObject :=
  {| object_schema := accept_all; partial := accept_all |}.

Definition sample_state : JsVal := JObj [("count", JNum 1)].

(** ** Sample transport *)

Definition sample_auth_header (kind : AuthType) (secret : string)
  : string * string :=
  ("Authorization", secret).

Definition sample_stringify (v : JsVal) : string :=
  match v with
  | JStr s => JSON_stringify_string s
  | _ => "null"
  end.

(** A server that answers every request with an empty envelope. *)
Definition empty_envelope_transport (r : Request)
  : Dispatcher.TransportResult :=
  Dispatcher.HttpResponse 200 (Some (JObj [])).

(** A server that answers every request with a list of two images. *)
Definition images_fixture : JsVal :=
  JObj [("images", JArr [JStr "registry/app"; JStr "registry/worker"])].

Definition images_transport (r : Request) : Dispatcher.TransportResult :=
  Dispatcher.HttpResponse 200 (Some images_fixture).

(** ** What a call carries *)

(** The body a call is made with; [undefined] when it has none. *)
Definition call_body (c : ClientCall) : JsVal :=
  match c with
  | client_get _ _ => JUndefined
  | client_post _ b _ | client_patch _ b _ | client_delete _ b _ => b
  | client_raw _ r => js_opt (req_body r)
  end.

Definition bound_to_string (params : Params) (name : string) : bool :=
  match assoc name params with
  | Some (JStr _) => true
  | _ => false
  end.

(** Every placeholder of the call's template has a string in its
    mapping. *)
Definition placeholders_bound (c : ClientCall) : bool :=
  forallb (bound_to_string (call_params c))
          (Dispatcher.placeholders (call_path c)).

(** The keys of the mapping that are not placeholders of the template. *)
Definition extra_keys (c : ClientCall) : list string :=
  filter (fun k => negb (existsb (String.eqb k)
                           (Dispatcher.placeholders (call_path c))))
         (map fst (call_params c)).

Definition is_secrets_create (op : ScopedOp) : bool :=
  match op with
  | SecretsCreate _ _ => true
  | _ => false
  end.

Definition is_registry (op : ScopedOp) : bool := negb (in_projects_sdk op).

(** ** The typed channels client as a whole *)

Inductive TypedOp : Type :=
| TypedPublish (event : string) (data : JsVal)
| TypedDelete
| TypedSubscribeTokens (tokens : list string)
| TypedSetState (st : JsVal)
| TypedPatchState (st : JsVal).

(** [create(hop, stateDefinition, eventsDefinition).selectChannel(channel)]
    and one of its methods. *)
Definition selectChannel (stateDefinition : StateClientDefinition)
           (eventsDefinition : EventsClientDefinition) (channel : string)
           (op : TypedOp) : Prog ChannelsCall JsVal :=
  match op with
  | TypedPublish event data =>
      unstable_typedChannelsClient.publish eventsDefinition channel event data
  | TypedDelete => unstable_typedChannelsClient.delete channel
  | TypedSubscribeTokens toks =>
      unstable_typedChannelsClient.subscribeTokens channel toks
  | TypedSetState st =>
      unstable_typedChannelsClient.setState stateDefinition channel st
  | TypedPatchState st =>
      unstable_typedChannelsClient.patchState stateDefinition channel st
  end.

Definition channel_of (c : ChannelsCall) : string :=
  match c with
  | channels_publishMessage ch _ _ | channels_delete ch
  | channels_subscribeTokens ch _ | channels_setState ch _
  | channels_patchState ch _ => ch
  end.

(** The payload a typed method is given, and the schema it is held
    against: the event's own schema for [publish], the state schema for
    [setState], its [partial()] for [patchState]. *)
Definition typed_payload (op : TypedOp) : option JsVal :=
  match op with
  | TypedPublish _ data => Some data
  | TypedSetState st | TypedPatchState st => Some st
  | _ => None
  end.

Definition validator_for (stateDefinition : StateClientDefinition)
           (eventsDefinition : EventsClientDefinition) (op : TypedOp)
  : option Schema :=
  match op with
  | TypedPublish event _ =>
      unstable_typedChannelsClient.event_schema eventsDefinition event
  | TypedSetState _ => option_map object_schema (schema stateDefinition)
  | TypedPatchState _ => option_map partial (schema stateDefinition)
  | _ => None
  end.

(** The method of [hop.channels] a typed method is named after. *)
Definition typed_method (op : TypedOp) : ChannelsMethod :=
  match op with
  | TypedPublish _ _ => publishMessage_m
  | TypedDelete => delete_m
  | TypedSubscribeTokens _ => subscribeTokens_m
  | TypedSetState _ => setState_m
  | TypedPatchState _ => patchState_m
  end.

(** ** More samples *)

Definition reject_all : Schema := {| parseAsync := fun _ => Err ZodError |}.

(** A schema that accepts objects only and keeps their [count] field. *)
Definition count_only : Schema :=
  {| parseAsync := fun v =>
       match v with
       | JObj fields =>
           match assoc "count" fields with
           | Some n => Ok (JObj [("count", n)])
           | None => Err ZodError
           end
       | _ => Err ZodError
       end |}.

Definition sample_events : EventsClientDefinition :=
  unstable_typedChannelsClient.events
    (Some [("tick", count_only); ("closed", reject_all)]).

Definition sample_state_definition : StateClientDefinition :=
  unstable_typedChannelsClient.state
    (Some {| object_schema := count_only; partial := accept_all |}).

(** A client that answers every call with the same envelope. *)
Definition answer_with (v : JsVal) (c : ClientCall) : Result JsVal := Ok v.

(** The channels SDK answering every call with [undefined]. *)
Definition channels_ok (c : ChannelsCall) : Result JsVal := Ok JUndefined.

Definition sample_tick : JsVal :=
  JObj [("count", JNum 1); ("debug", JBool true)].

(** The mapping without its "project_id" entry. *)
Definition without_project_id (params : Params) : Params :=
  filter (fun kv => negb (String.eqb (fst kv) "project_id")) params.

Definition sample_delete_with_id : ClientCall :=
  client_delete "/v1/projects/:project_id/secrets/:secret_id" JUndefined
    [("secret_id", JStr "secret_1"); ("project_id", JStr "project_123")].

Definition sample_delete_without_id : ClientCall :=
  client_delete "/v1/projects/@this/secrets/:secret_id" JUndefined
    [("secret_id", JStr "secret_1")].

(** * Properties *)

(** ** Helper lemmas *)

Lemma truthy_supplied (p : string) : p <> "" -> truthy (Some p) = true.
Proof.
  intros Hp. unfold truthy.
  destruct (String.eqb p "") eqn:E; [|reflexivity].
  apply String.eqb_eq in E. contradiction.
Qed.

Lemma truthy_is_supplied (project : option string) :
  truthy project = true -> exists p, project = Some p /\ p <> "".
Proof.
  destruct project as [p|]; simpl; [|discriminate].
  intros H. exists p. split; [reflexivity|].
  intros ->. discriminate.
Qed.

Lemma not_ptk (kind : AuthType) : kind <> ptk -> AuthType_eqb kind ptk = false.
Proof. destruct kind; [contradiction | reflexivity | reflexivity]. Qed.

Lemma AuthType_eqb_eq (a b : AuthType) : AuthType_eqb a b = true <-> a = b.
Proof. destruct a, b; simpl; split; congruence. Qed.

(** A program that awaits one call and then only reads a field of its
    result makes exactly that call, whatever the call returns. *)
Lemma exec_await_read {Call : Type} (h : Call -> Result JsVal) (c : Call)
      (f : string) :
  fst (exec h (r <- await c ;; x <- destructure r f ;; Return x)) = [c].
Proof.
  simpl. destruct (h c) as [v|e]; [|reflexivity].
  destruct v; reflexivity.
Qed.

Lemma exec_await_ignore {Call : Type} (h : Call -> Result JsVal) (c : Call) :
  fst (exec h (_ <- await c ;; Return JUndefined)) = [c].
Proof. simpl. destruct (h c); reflexivity. Qed.

Ltac step_gate :=
  cbn [invoke call_op projects registry
       img_getAll img_getManifest img_delete
       tk_delete tk_get tk_create
       wh_get wh_create wh_edit wh_delete wh_regenerateSecret
       sc_getAll sc_create sc_delete
       sdk_getAllMembers sdk_getCurrentMember
       tokens webhooks secrets projectTokens];
  unfold images.getAll, images.getManifest, images.delete,
         tokens.delete, tokens.get, tokens.create,
         webhooks.get, webhooks.create, webhooks.edit, webhooks.delete,
         webhooks.regenerateSecret,
         secrets.getAll, secrets.create, secrets.delete,
         getAllMembers, getCurrentMember.

(** ** The capability gate *)

(** C1. Under a credential that is not a project token, every operation
    that takes an optional project id, called without one, throws an
    [Error] of its own; whatever the client would answer, no call reaches
    it. *)
Theorem project_id_required_unless_ptk
        (client : APIClient) (op : ScopedOp) :
  authType client <> ptk ->
  exists message,
    invoke client op None = Throw (Error message) /\
    forall h, exec h (invoke client op None) = ([], Err (Error message)).
Proof.
  intros Hkind. apply not_ptk in Hkind.
  destruct op; step_gate; rewrite Hkind; cbn;
    eexists; split; intros; reflexivity.
Qed.

(** C2. Under a project token, [getCurrentMember] throws an [Error] of its
    own, with or without a project id, and no call reaches the client. *)
Theorem getCurrentMember_refuses_ptk
        (client : APIClient) (projectId : option string) :
  authType client = ptk ->
  exists message,
    sdk_getCurrentMember (projects client) projectId
      = Throw (Error message) /\
    forall h, exec h (sdk_getCurrentMember (projects client) projectId)
              = ([], Err (Error message)).
Proof.
  intros Hkind. step_gate. rewrite Hkind. cbn.
  eexists; split; intros; reflexivity.
Qed.

Ltac one_call := first [apply exec_await_read | apply exec_await_ignore].

(** C4. Under a project token, every operation that takes an optional
    project id, called without one, passes the gate and makes exactly one
    call.  The path template of that call has no ":project_id" segment and
    no "project_id" parameter: it is the template used when an id is given,
    with "@this" in the place of ":project_id".  The operations of the
    projects SDK have the "@this" segment; those of the registry SDK, whose
    template names no project, do not: they pass the project as the entry
    "project" of the mapping, which no template has a placeholder for, and
    which is [undefined] here. *)
Theorem ptk_may_omit_project_id (client : APIClient) (op : ScopedOp) :
  authType client = ptk ->
  url_resolves client op None ->
  exists c,
    dispatched (invoke client op None) = Some c /\
    (forall h, fst (exec h (invoke client op None)) = [c]) /\
    has_segment ":project_id" (call_path c) = false /\
    assoc "project_id" (call_params c) = None /\
    has_segment "@this" (call_path c) = in_projects_sdk op /\
    has_segment ":project" (call_path c) = false /\
    (in_projects_sdk op = false ->
     assoc "project" (call_params c) = Some JUndefined) /\
    (forall p c', p <> "" ->
       dispatched (invoke client op (Some p)) = Some c' ->
       call_path c = this_variant (call_path c')).
Proof.
  intros Hkind Hurl.
  destruct op; step_gate; rewrite Hkind; cbn [AuthType_eqb negb andb];
    change (truthy None) with false; cbn [negb andb];
    try (eexists;
         split; [reflexivity|];
         split; [intros h; one_call|];
         split; [reflexivity|];
         split; [reflexivity|];
         split; [reflexivity|];
         split; [reflexivity|];
         split; [first [intros _; reflexivity | intros H; discriminate H]|];
         intros p c' Hp; rewrite (truthy_supplied p Hp); cbn;
         intros [= <-]; reflexivity).
  (* secrets.create: the URL is built before the request *)
  destruct Hurl as [u Hu]. rewrite Hu.
  eexists.
  split; [reflexivity|].
  split; [intros h; simpl; destruct (h _) as [[]|]; reflexivity|].
  split; [reflexivity|].
  split; [reflexivity|].
  split; [reflexivity|].
  split; [reflexivity|].
  split; [discriminate|].
  intros p c' _.
  destruct (url client _ [_; ("project", js_opt (Some p))]); cbn; intros H;
    [injection H as <-; reflexivity | discriminate H].
Qed.

(** C4 as worded, with "@this" in the template of every such operation,
    fails for the registry: under a project token, listing the images
    without a project id calls "/v1/registry/images". *)
Lemma registry_call_has_no_this_segment :
  ~ (forall client op,
       authType client = ptk ->
       url_resolves client op None ->
       exists c,
         dispatched (invoke client op None) = Some c /\
         has_segment "@this" (call_path c) = true).
Proof.
  intros H.
  destruct (H ptk_client RegistryImagesGetAll eq_refl I) as (c & Hc & Hthis).
  injection Hc as <-. discriminate Hthis.
Qed.

(** C8. [projectTokens] and [tokens] are one object: each of [get],
    [create] and [delete] is the same program through either name, for
    every client and every argument, and so runs alike against every
    client behaviour. *)
Theorem projectTokens_same_as_tokens (client : APIClient) :
  projectTokens (projects client) = tokens (projects client) /\
  (forall projectId,
     tk_get (projectTokens (projects client)) projectId
     = tk_get (tokens (projects client)) projectId) /\
  (forall flags projectId,
     tk_create (projectTokens (projects client)) flags projectId
     = tk_create (tokens (projects client)) flags projectId) /\
  (forall projectTokenId project,
     tk_delete (projectTokens (projects client)) projectTokenId project
     = tk_delete (tokens (projects client)) projectTokenId project) /\
  (forall h projectId flags projectTokenId,
     exec h (tk_get (projectTokens (projects client)) projectId)
     = exec h (tk_get (tokens (projects client)) projectId) /\
     exec h (tk_create (projectTokens (projects client)) flags projectId)
     = exec h (tk_create (tokens (projects client)) flags projectId) /\
     exec h (tk_delete (projectTokens (projects client))
               projectTokenId projectId)
     = exec h (tk_delete (tokens (projects client))
                 projectTokenId projectId)).
Proof. repeat split; reflexivity. Qed.

(** C9. For every operation of the projects SDK that branches on the
    project id, and every credential kind: with a project id the call goes
    to the ":project_id" template, with the id bound to [project_id];
    and whenever a call is made, its template is the "@this" one exactly
    when the id was left out.  (A project id is a non-empty string.) *)
Theorem explicit_project_id_selects_template
        (client : APIClient) (op : ScopedOp) :
  branches_on_project op = true ->
  (forall p, p <> "" ->
     exists c,
       dispatched (invoke client op (Some p)) = Some c /\
       (forall h, fst (exec h (invoke client op (Some p))) = [c]) /\
       has_segment ":project_id" (call_path c) = true /\
       has_segment "@this" (call_path c) = false /\
       assoc "project_id" (call_params c) = Some (JStr p)) /\
  (forall c,
     dispatched (invoke client op None) = Some c ->
     has_segment "@this" (call_path c) = true /\
     has_segment ":project_id" (call_path c) = false /\
     assoc "project_id" (call_params c) = None) /\
  (forall project c,
     project <> Some "" ->
     dispatched (invoke client op project) = Some c ->
     (has_segment "@this" (call_path c) = true <-> project = None)).
Proof.
  intros Hop.
  assert (Hsome : forall p, p <> "" ->
    exists c,
      dispatched (invoke client op (Some p)) = Some c /\
      (forall h, fst (exec h (invoke client op (Some p))) = [c]) /\
      has_segment ":project_id" (call_path c) = true /\
      has_segment "@this" (call_path c) = false /\
      assoc "project_id" (call_params c) = Some (JStr p)).
  { intros p Hp.
    destruct op; try discriminate Hop; step_gate;
      rewrite (truthy_supplied p Hp);
      rewrite ?andb_false_r; cbn [negb andb];
      (eexists; repeat split; intros h; one_call). }
  assert (Hnone : forall c,
    dispatched (invoke client op None) = Some c ->
    has_segment "@this" (call_path c) = true /\
    has_segment ":project_id" (call_path c) = false /\
    assoc "project_id" (call_params c) = None).
  { intros c.
    destruct op; try discriminate Hop; step_gate;
      change (truthy None) with false;
      destruct (AuthType_eqb (authType client) ptk); cbn;
      intros [= <-]; repeat split. }
  split; [exact Hsome|]. split; [exact Hnone|].
  intros [p|] c Hproject Hc.
  - assert (Hp : p <> "") by congruence.
    destruct (Hsome p Hp) as (c0 & Hc0 & _ & _ & Hthis & _).
    rewrite Hc in Hc0. injection Hc0 as ->.
    rewrite Hthis. split; discriminate.
  - destruct (Hnone c Hc) as (Hthis & _). split; auto.
Qed.

(** The test on the project id is JavaScript truthiness, so an empty
    string counts as no id: under a project token it selects the "@this"
    template.  Hence the non-empty ids above. *)
Lemma empty_project_id_counts_as_omitted :
  dispatched (invoke ptk_client TokensGet (Some ""))
  = Some (client_get "/v1/projects/@this/tokens" []) /\
  invoke bearer_client TokensGet (Some "")
  = Throw (Error "Project ID is required for bearer or PAT authentication").
Proof. split; reflexivity. Qed.

(** ** Secret creation *)

Lemma length_append (a b : string) :
  String.length (a ++ b) = String.length a + String.length b.
Proof. induction a as [|c a IH]; simpl; [reflexivity | now rewrite IH]. Qed.

Lemma escape_char_nonempty (c : ascii) : 1 <= String.length (escape_char c).
Proof.
  unfold escape_char.
  repeat match goal with
         | |- context [if ?b then _ else _] => destruct b
         end; simpl; lia.
Qed.

Lemma escape_length (s : string) : String.length s <= String.length (escape s).
Proof.
  induction s as [|c s IH]; simpl; [lia|].
  rewrite length_append. pose proof (escape_char_nonempty c). lia.
Qed.

Lemma JSON_text_differs (s : string) : s <> JSON_stringify_string s.
Proof.
  intros H. apply (f_equal String.length) in H.
  unfold JSON_stringify_string in H. simpl in H.
  rewrite length_append in H. simpl in H.
  pose proof (escape_length s). lia.
Qed.

(** C3. Whenever [secrets.create] passes the gate (and the client builds
    the URL), its one request is a PUT whose body is the value itself, with
    the single header Content-Type: text/plain; the body is not the JSON
    text of the value. *)
Theorem secret_value_sent_as_plain_text
        (client : APIClient) (name value : string)
        (projectId : option string) (u : URL) :
  authType client = ptk \/ truthy projectId = true ->
  url client "/v1/projects/@this/secrets/:name"
      [("name", JStr name); ("project", js_opt projectId)] = Ok u ->
  exists request,
    dispatched (sc_create (secrets (projects client)) name value projectId)
    = Some (client_raw (PUT, "/v1/projects/@this/secrets/:name") request) /\
    (forall h,
       fst (exec h (sc_create (secrets (projects client))
                      name value projectId))
       = [client_raw (PUT, "/v1/projects/@this/secrets/:name") request]) /\
    req_method request = PUT /\
    req_headers request = [("Content-Type", "text/plain")] /\
    req_body request = Some value /\
    req_body request <> Some (JSON_stringify_string value).
Proof.
  intros Hgate Hu. step_gate.
  assert (Hpass : negb (AuthType_eqb (authType client) ptk)
                  && negb (truthy projectId) = false).
  { destruct Hgate as [-> | ->]; [reflexivity | apply andb_false_r]. }
  rewrite Hpass, Hu.
  eexists.
  split; [reflexivity|].
  split; [intros h; simpl; destruct (h _) as [[]|]; reflexivity|].
  split; [reflexivity|].
  split; [reflexivity|].
  split; [reflexivity|].
  cbn. intros [= H]. exact (JSON_text_differs value H).
Qed.

(** The dispatcher adds its authentication header and leaves the rest of a
    raw request as it was built. *)
Lemma outgoing_raw_unchanged
      (auth_header : AuthType -> string -> string * string)
      (stringify : JsVal -> string) (client : APIClient)
      (endpoint : Method * string) (r : Request) :
  exists req,
    Dispatcher.outgoing auth_header stringify client (client_raw endpoint r)
    = Ok req /\
    req_body req = req_body r /\
    req_method req = req_method r /\
    req_url req = req_url r /\
    tl (req_headers req) = req_headers r.
Proof. eexists. repeat split. Qed.

(** C10. [secrets.create] always builds its URL from the "@this" template,
    with the mapping [{name, project: projectId}]: the only segment of
    the template that is a placeholder is ":name", and the project id,
    given or not, goes in under the key "project", which the template
    does not mention. *)
Theorem secret_create_always_uses_this_template
        (client : APIClient) (name value : string)
        (projectId : option string) :
  authType client = ptk \/ truthy projectId = true ->
  (forall u,
     url client "/v1/projects/@this/secrets/:name"
         [("name", JStr name); ("project", js_opt projectId)] = Ok u ->
     exists request,
       dispatched (sc_create (secrets (projects client))
                     name value projectId)
       = Some (client_raw (PUT, "/v1/projects/@this/secrets/:name")
                 request) /\
       req_url request = u) /\
  (forall e,
     url client "/v1/projects/@this/secrets/:name"
         [("name", JStr name); ("project", js_opt projectId)] = Err e ->
     sc_create (secrets (projects client)) name value projectId = Throw e) /\
  segments "/v1/projects/@this/secrets/:name"
  = [""; "v1"; "projects"; "@this"; "secrets"; ":name"] /\
  assoc "project" [("name", JStr name); ("project", js_opt projectId)]
  = Some (js_opt projectId) /\
  assoc "project_id" [("name", JStr name); ("project", js_opt projectId)]
  = None.
Proof.
  intros Hgate.
  assert (Hpass : negb (AuthType_eqb (authType client) ptk)
                  && negb (truthy projectId) = false).
  { destruct Hgate as [-> | ->]; [reflexivity | apply andb_false_r]. }
  split; [|split].
  - intros u Hu. step_gate. rewrite Hpass, Hu.
    eexists. split; reflexivity.
  - intros e He. step_gate. rewrite Hpass, He. reflexivity.
  - repeat split.
Qed.

(** With the dispatcher's URL builder, the URL of [secrets.create] has the
    secret name as its last path segment and the project id, when given,
    as the query parameter "project". *)
Lemma secret_url_shape (base name : string) (projectId : option string) :
  Dispatcher.build_url base "/v1/projects/@this/secrets/:name"
    [("name", JStr name); ("project", js_opt projectId)]
  = Ok {| origin := base;
          pathname := ["v1"; "projects"; "@this"; "secrets"; name];
          searchParams := match projectId with
                          | Some p => [("project", p)]
                          | None => []
                          end |}.
Proof. destruct projectId; reflexivity. Qed.

(** ** Construction *)

(** C5. [new Hop(...)] throws when the credential is missing or empty, and
    when the client's classifier does not recognize it; a [Hop] that is
    constructed holds a non-empty credential of a recognized kind. *)
Theorem Hop_needs_valid_credential
        (DEFAULT_BASE_URL : string) (classify : string -> option AuthType)
        (url_builder : string -> string -> Params -> Result URL)
        (arg : HopArg) (baseUrl : option string) :
  (credential_of arg = None \/ credential_of arg = Some "" ->
   exists message,
     Hop_new DEFAULT_BASE_URL classify url_builder arg baseUrl
     = Err (Error message)) /\
  (forall s,
     credential_of arg = Some s -> s <> "" -> classify s = None ->
     Hop_new DEFAULT_BASE_URL classify url_builder arg baseUrl
     = Err InvalidCredential) /\
  (forall hop,
     Hop_new DEFAULT_BASE_URL classify url_builder arg baseUrl = Ok hop ->
     exists s,
       credential_of arg = Some s /\ s <> "" /\
       classify s = Some (authType (hop_client hop)) /\
       authentication (options (hop_client hop)) = s).
Proof.
  split; [|split].
  - intros [H | H]; destruct arg as [|s|[a b]]; simpl in H;
      try discriminate H; try injection H as ->; try subst a;
      eexists; reflexivity.
  - intros s Hs Hne Hc.
    destruct arg as [|s'|[a b]]; simpl in Hs;
      try discriminate Hs; try injection Hs as ->; try subst a;
      unfold Hop_new; cbn [arg_truthy is_object arg_authentication
                             opt_authentication];
      rewrite (truthy_supplied s Hne); cbn [negb orb andb];
      unfold APIClient_new; cbn [authentication]; rewrite Hc; reflexivity.
  - intros hop.
    destruct arg as [|s|[[s|] b]]; unfold Hop_new;
      cbn [arg_truthy is_object arg_authentication opt_authentication
           negb orb andb];
      try (change (truthy None) with false; cbn [negb orb andb]);
      try discriminate;
      (destruct (truthy (Some s)) eqn:Ht; cbn [negb orb andb];
       [|discriminate]);
      apply truthy_is_supplied in Ht; destruct Ht as (s0 & [= <-] & Hne);
      unfold APIClient_new; cbn [authentication opt_authentication];
      (destruct (classify s) as [kind|] eqn:Hc; [|discriminate]);
      intros [= <-]; exists s; repeat split; assumption.
Qed.

(** ** Typed channels *)

Import unstable_typedChannelsClient.

(** [publish] forwards to [publishMessage], with or without a schema. *)
Lemma publish_same_operation
      (eventsDefinition : EventsClientDefinition) (channel event : string)
      (data : JsVal) (c : ChannelsCall) :
  dispatched (publish eventsDefinition channel event data) = Some c ->
  method_of c = publishMessage_m.
Proof.
  unfold publish.
  destruct (event_schema eventsDefinition event) as [s|].
  - destruct (parseAsync s data); cbn; [|discriminate].
    intros [= <-]. reflexivity.
  - cbn. intros [= <-]. reflexivity.
Qed.

(** [setState] forwards to [setState], with or without a schema. *)
Lemma setState_same_operation
      (stateDefinition : StateClientDefinition) (channel : string)
      (st : JsVal) (c : ChannelsCall) :
  dispatched (setState stateDefinition channel st) = Some c ->
  method_of c = setState_m.
Proof.
  unfold setState.
  destruct (schema stateDefinition) as [s|].
  - destruct (parseAsync (object_schema s) st); cbn; [|discriminate].
    intros [= <-]. reflexivity.
  - cbn. intros [= <-]. reflexivity.
Qed.

(** With a schema, [patchState] forwards the parsed state to [setState]. *)
Lemma patchState_validated_goes_to_setState
      (s : ZodObject) (channel : string) (st parsed : JsVal) :
  parseAsync (partial s) st = Ok parsed ->
  dispatched (patchState (state (Some s)) channel st)
  = Some (channels_setState channel parsed).
Proof. intros H. unfold patchState. cbn. rewrite H. reflexivity. Qed.

Lemma patchState_unvalidated_goes_to_patchState
      (channel : string) (st : JsVal) :
  dispatched (patchState (state None) channel st)
  = Some (channels_patchState channel st).
Proof. reflexivity. Qed.

(** C6. [patchState] does not keep to one operation: with a schema that
    accepts the state unchanged it calls [hop.channels.setState], without a
    schema it calls [hop.channels.patchState], on the same payload. *)
Theorem patchState_operation_depends_on_schema :
  dispatched (patchState (state (Some sample_state_schema))
                "room" sample_state)
  = Some (channels_setState "room" sample_state) /\
  dispatched (patchState (state None) "room" sample_state)
  = Some (channels_patchState "room" sample_state) /\
  method_of (channels_setState "room" sample_state)
  <> method_of (channels_patchState "room" sample_state).
Proof. repeat split. discriminate. Qed.

(** ** Response decoding *)

(** An operation that reads a field is its one call followed by the read,
    and the endpoint it calls declares exactly that field. *)
Lemma op_reads_declared_field
      (client : APIClient) (op : Op) (project : option string)
      (f : string) (c : ClientCall) :
  expected_field op = Some f ->
  dispatched (call_op client op project) = Some c ->
  call_op client op project
  = (r <- await c ;; x <- destructure r f ;; Return x) /\
  Dispatcher.response_shape (call_method c) (call_path c) = [f].
Proof.
  intros Hf.
  destruct op as [op|]; [destruct op|]; cbn in Hf;
    try discriminate Hf; injection Hf as <-; step_gate;
    destruct (AuthType_eqb (authType client) ptk);
    destruct (truthy project); cbn [negb andb];
    try (cbn; discriminate);
    try (cbn; intros [= <-]; split; reflexivity).
  all: destruct (url client _ _); cbn;
    [intros [= <-]; split; reflexivity | discriminate].
Qed.

(** X16. The SDK methods read the field without checking for it: handed
    an envelope that has it they return it, and handed one that lacks it
    they return [undefined]. *)
Lemma sdk_returns_field
      (client : APIClient) (op : Op) (project : option string)
      (f : string) (c : ClientCall) (h : ClientCall -> Result JsVal)
      (fields : list (string * JsVal)) :
  expected_field op = Some f ->
  dispatched (call_op client op project) = Some c ->
  h c = Ok (JObj fields) ->
  exec h (call_op client op project)
  = ([c], Ok (match assoc f fields with
              | Some v => v
              | None => JUndefined
              end)).
Proof.
  intros Hf Hc Hh.
  destruct (op_reads_declared_field client op project f c Hf Hc) as [-> _].
  simpl. rewrite Hh. reflexivity.
Qed.

(** C7. Through the dispatcher: when an operation that reads a field of
    the response has sent its request, and the response is a success whose
    envelope lacks that field, the operation fails with [DecodeError]. *)
Theorem missing_field_is_decode_error
        (auth_header : AuthType -> string -> string * string)
        (stringify : JsVal -> string)
        (transport : Request -> Dispatcher.TransportResult)
        (client : APIClient) (op : Op) (project : option string)
        (f : string) (c : ClientCall) (req : Request)
        (status : Z) (env : JsVal) :
  expected_field op = Some f ->
  dispatched (call_op client op project) = Some c ->
  Dispatcher.outgoing auth_header stringify client c = Ok req ->
  transport req = Dispatcher.HttpResponse status (Some env) ->
  Dispatcher.is_success status = true ->
  Dispatcher.has_field env f = false ->
  exec (Dispatcher.dispatch auth_header stringify transport client)
       (call_op client op project)
  = ([c], Err DecodeError).
Proof.
  intros Hf Hc Hout Ht Hs Hlack.
  destruct (op_reads_declared_field client op project f c Hf Hc)
    as [-> Hshape].
  simpl. unfold Dispatcher.dispatch.
  rewrite Hout, Hshape, Ht. unfold Dispatcher.receive. rewrite Hs.
  simpl. rewrite Hlack. reflexivity.
Qed.

(** ** Instances *)

Lemma project_id_required_unless_ptk_witness :
  authType bearer_client <> ptk /\
  exists message,
    invoke bearer_client TokensGet None = Throw (Error message) /\
    forall h, exec h (invoke bearer_client TokensGet None)
              = ([], Err (Error message)).
Proof.
  split; [discriminate|].
  apply (project_id_required_unless_ptk bearer_client TokensGet).
  discriminate.
Defined.

Lemma getCurrentMember_refuses_ptk_witness :
  authType ptk_client = ptk /\
  exists message,
    sdk_getCurrentMember (projects ptk_client) (Some "project_123")
      = Throw (Error message) /\
    forall h,
      exec h (sdk_getCurrentMember (projects ptk_client)
                (Some "project_123"))
      = ([], Err (Error message)).
Proof.
  split; [reflexivity|].
  apply (getCurrentMember_refuses_ptk ptk_client (Some "project_123")).
  reflexivity.
Defined.

Lemma secret_value_sent_as_plain_text_witness :
  exists request,
    dispatched (sc_create (secrets (projects bearer_client))
                  "API_KEY" "s3cr3t" (Some "project_123"))
    = Some (client_raw (PUT, "/v1/projects/@this/secrets/:name") request) /\
    (forall h,
       fst (exec h (sc_create (secrets (projects bearer_client))
                      "API_KEY" "s3cr3t" (Some "project_123")))
       = [client_raw (PUT, "/v1/projects/@this/secrets/:name") request]) /\
    req_method request = PUT /\
    req_headers request = [("Content-Type", "text/plain")] /\
    req_body request = Some "s3cr3t" /\
    req_body request <> Some (JSON_stringify_string "s3cr3t").
Proof.
  apply (secret_value_sent_as_plain_text bearer_client "API_KEY" "s3cr3t"
           (Some "project_123") sample_secret_url).
  - right. reflexivity.
  - reflexivity.
Defined.

Lemma ptk_may_omit_project_id_witness :
  (exists c,
     dispatched (invoke ptk_client RegistryImagesGetAll None) = Some c /\
     (forall h,
        fst (exec h (invoke ptk_client RegistryImagesGetAll None)) = [c]) /\
     has_segment ":project_id" (call_path c) = false /\
     assoc "project_id" (call_params c) = None /\
     has_segment "@this" (call_path c) = false /\
     has_segment ":project" (call_path c) = false /\
     (false = false -> assoc "project" (call_params c) = Some JUndefined) /\
     (forall p c', p <> "" ->
        dispatched (invoke ptk_client RegistryImagesGetAll (Some p))
        = Some c' ->
        call_path c = this_variant (call_path c'))) /\
  (exists c,
     dispatched (invoke ptk_client (SecretsCreate "API_KEY" "s3cr3t") None)
     = Some c /\
     (forall h,
        fst (exec h (invoke ptk_client (SecretsCreate "API_KEY" "s3cr3t")
                       None)) = [c]) /\
     has_segment ":project_id" (call_path c) = false /\
     assoc "project_id" (call_params c) = None /\
     has_segment "@this" (call_path c) = true /\
     has_segment ":project" (call_path c) = false /\
     (true = false -> assoc "project" (call_params c) = Some JUndefined) /\
     (forall p c', p <> "" ->
        dispatched (invoke ptk_client (SecretsCreate "API_KEY" "s3cr3t")
                      (Some p)) = Some c' ->
        call_path c = this_variant (call_path c'))).
Proof.
  split.
  - apply (ptk_may_omit_project_id ptk_client RegistryImagesGetAll).
    + reflexivity.
    + exact I.
  - apply (ptk_may_omit_project_id ptk_client
             (SecretsCreate "API_KEY" "s3cr3t")).
    + reflexivity.
    + simpl. eexists. reflexivity.
Defined.

Lemma explicit_project_id_selects_template_witness :
  exists c,
    dispatched (invoke ptk_client (TokensDelete "ptkid_1")
                  (Some "project_123")) = Some c /\
    (forall h,
       fst (exec h (invoke ptk_client (TokensDelete "ptkid_1")
                      (Some "project_123"))) = [c]) /\
    has_segment ":project_id" (call_path c) = true /\
    has_segment "@this" (call_path c) = false /\
    assoc "project_id" (call_params c) = Some (JStr "project_123").
Proof.
  apply (explicit_project_id_selects_template ptk_client
           (TokensDelete "ptkid_1")).
  - reflexivity.
  - discriminate.
Defined.

Lemma secret_create_always_uses_this_template_witness :
  exists request,
    dispatched (sc_create (secrets (projects bearer_client))
                  "API_KEY" "s3cr3t" (Some "project_123"))
    = Some (client_raw (PUT, "/v1/projects/@this/secrets/:name") request) /\
    req_url request = sample_secret_url.
Proof.
  apply (secret_create_always_uses_this_template bearer_client
           "API_KEY" "s3cr3t" (Some "project_123")).
  - right. reflexivity.
  - reflexivity.
Defined.

Lemma missing_field_is_decode_error_witness :
  exec (Dispatcher.dispatch sample_auth_header sample_stringify
          empty_envelope_transport ptk_client)
       (call_op ptk_client (Scoped RegistryImagesGetAll) None)
  = ([client_get "/v1/registry/images" [("project", JUndefined)]],
     Err DecodeError).
Proof.
  eapply (missing_field_is_decode_error sample_auth_header sample_stringify
            empty_envelope_transport ptk_client
            (Scoped RegistryImagesGetAll) None "images"
            (client_get "/v1/registry/images" [("project", JUndefined)])
            _ 200 (JObj [])); reflexivity.
Defined.

(** The two scenarios of the specification: a project token lists the
    images without a project id, and a bearer token cannot list project
    tokens without one. *)
Example images_listed_under_ptk :
  Dispatcher.classify_by_prefix "pat_" "ptk_abc123" = Some ptk /\
  exec (Dispatcher.dispatch sample_auth_header sample_stringify
          images_transport ptk_client)
       (img_getAll (registry ptk_client) None)
  = ([client_get "/v1/registry/images" [("project", JUndefined)]],
     Ok (JArr [JStr "registry/app"; JStr "registry/worker"])).
Proof. split; reflexivity. Qed.

Example tokens_refused_under_bearer :
  Dispatcher.classify_by_prefix "pat_" "bearer_xyz" = Some bearer /\
  exec (Dispatcher.dispatch sample_auth_header sample_stringify
          images_transport bearer_client)
       (tk_get (tokens (projects bearer_client)) None)
  = ([], Err (Error
       "Project ID is required for bearer or PAT authentication")).
Proof. split; reflexivity. Qed.

Example Hop_constructed_from_ptk :
  exists hop,
    Hop_new "https://api.hop.io" (Dispatcher.classify_by_prefix "pat_")
            Dispatcher.build_url (ArgAuthentication "ptk_abc123") None
    = Ok hop /\
    hop_client hop = ptk_client.
Proof. eexists. split; reflexivity. Qed.


(** * Further properties of the SDKs *)

Lemma gate_passes (client : APIClient) (project : option string) :
  authType client = ptk \/ truthy project = true ->
  negb (AuthType_eqb (authType client) ptk) && negb (truthy project) = false
  /\ negb (truthy project) && negb (AuthType_eqb (authType client) ptk)
     = false.
Proof.
  intros [-> | ->]; split; cbn; try reflexivity; apply andb_false_r.
Qed.

(** X1. The gate of every operation with an optional project id looks at
    two things only, the credential kind and whether the id is truthy:
    without a project token and without a truthy id the operation throws
    its own [Error]; in every other case it makes exactly one call. *)
Theorem gate_depends_on_kind_and_presence
        (client : APIClient) (op : ScopedOp) (project : option string) :
  url_resolves client op project ->
  (authType client <> ptk /\ truthy project = false ->
   exists message, invoke client op project = Throw (Error message)) /\
  (authType client = ptk \/ truthy project = true ->
   exists c,
     dispatched (invoke client op project) = Some c /\
     forall h, fst (exec h (invoke client op project)) = [c]).
Proof.
  intros Hurl. split.
  - intros [Hk Ht]. apply not_ptk in Hk.
    destruct op; step_gate; rewrite Hk, Ht; cbn [negb andb];
      eexists; reflexivity.
  - intros Hgate. destruct (gate_passes client project Hgate) as [H1 H2].
    destruct op; step_gate; rewrite ?H1, ?H2;
      try (destruct (truthy project); cbn [negb];
           (eexists; split; [reflexivity | intros h; one_call])).
    destruct Hurl as [u Hu]. rewrite Hu.
    eexists. split; [reflexivity|].
    intros h. simpl. destruct (h _) as [[]|]; reflexivity.
Qed.

(** X2. An empty string given as the project id is the same as no id:
    under a credential that is not a project token every operation throws
    as it does without an id, and the operations that branch on the id run
    the same program as without one, whatever the credential. *)
Theorem empty_project_id_same_as_none (client : APIClient) (op : ScopedOp) :
  authType client <> ptk \/ branches_on_project op = true ->
  invoke client op (Some "") = invoke client op None.
Proof.
  intros [Hk | Hb].
  - apply not_ptk in Hk.
    destruct op; step_gate;
      change (truthy (Some "")) with false; change (truthy None) with false;
      rewrite Hk; reflexivity.
  - destruct op; try discriminate Hb; step_gate;
      change (truthy (Some "")) with false; change (truthy None) with false;
      reflexivity.
Qed.

(** X3. The registry operations have one path template each, with neither
    a ":project_id" nor an "@this" segment, whatever the credential and
    the project id; the id, given or not, is the entry "project" of the
    mapping. *)
Theorem registry_template_ignores_project
        (client : APIClient) (op : ScopedOp) (project : option string)
        (c : ClientCall) :
  is_registry op = true ->
  dispatched (invoke client op project) = Some c ->
  has_segment ":project_id" (call_path c) = false /\
  has_segment "@this" (call_path c) = false /\
  assoc "project" (call_params c) = Some (js_opt project) /\
  assoc "project_id" (call_params c) = None /\
  (forall client' project' c',
     dispatched (invoke client' op project') = Some c' ->
     call_path c' = call_path c).
Proof.
  intros Hreg.
  destruct op; try discriminate Hreg; step_gate;
    (destruct (negb (truthy project)
               && negb (AuthType_eqb (authType client) ptk));
     cbn; [discriminate|]);
    intros [= <-]; repeat split;
    intros client' project' c';
    (destruct (negb (truthy project')
               && negb (AuthType_eqb (authType client') ptk));
     cbn; [discriminate|]);
    intros [= <-]; reflexivity.
Qed.

(** X4. No operation of the two SDKs makes more than one call on the
    client, whatever the client answers. *)
Theorem at_most_one_call
        (client : APIClient) (op : Op) (project : option string)
        (h : ClientCall -> Result JsVal) :
  length (fst (exec h (call_op client op project))) <= 1.
Proof.
  destruct op as [op|]; [destruct op|]; step_gate;
    destruct (AuthType_eqb (authType client) ptk);
    destruct (truthy project); cbn [negb andb];
    try (cbn; lia);
    try (first [rewrite exec_await_read | rewrite exec_await_ignore];
         cbn; lia).
  all: destruct (url client _ _); cbn; try lia;
    destruct (h _) as [[]|]; cbn; lia.
Qed.

(** X5. The delete operations send DELETE without a body and resolve to
    [undefined], whatever the client answered. *)
Theorem delete_resolves_to_undefined
        (client : APIClient) (op : Op) (project : option string)
        (c : ClientCall) (h : ClientCall -> Result JsVal) (v : JsVal) :
  expected_field op = None ->
  dispatched (call_op client op project) = Some c ->
  h c = Ok v ->
  exec h (call_op client op project) = ([c], Ok JUndefined) /\
  call_method c = DELETE /\
  call_body c = JUndefined.
Proof.
  intros Hf.
  destruct op as [op|]; [destruct op|]; cbn in Hf; try discriminate Hf;
    step_gate;
    destruct (AuthType_eqb (authType client) ptk);
    destruct (truthy project); cbn [negb andb];
    try (cbn; discriminate);
    (cbn; intros [= <-] ->; repeat split).
Qed.

(** X6. When the client answers [undefined] or [null], an operation that
    reads a field of the answer fails with a TypeError after its one
    call. *)
Theorem nullish_answer_is_a_TypeError
        (client : APIClient) (op : Op) (project : option string)
        (f : string) (c : ClientCall) (h : ClientCall -> Result JsVal) :
  expected_field op = Some f ->
  dispatched (call_op client op project) = Some c ->
  h c = Ok JUndefined \/ h c = Ok JNull ->
  exec h (call_op client op project) = ([c], Err TypeError).
Proof.
  intros Hf Hc Hh.
  destruct (op_reads_declared_field client op project f c Hf Hc) as [-> _].
  simpl. destruct Hh as [-> | ->]; reflexivity.
Qed.

(** X7. Every placeholder of the template an operation calls is bound to
    a string in the mapping it passes, for every credential and project
    id; the only entry of a mapping that is not a placeholder is the
    "project" of the registry operations.  ([secrets.create] hands its
    mapping to [client.url] instead.) *)
Theorem placeholders_are_bound
        (client : APIClient) (op : ScopedOp) (project : option string)
        (c : ClientCall) :
  is_secrets_create op = false ->
  dispatched (invoke client op project) = Some c ->
  placeholders_bound c = true /\
  extra_keys c = (if is_registry op then ["project"] else []).
Proof.
  intros Hop.
  destruct op; try discriminate Hop; step_gate;
    destruct (AuthType_eqb (authType client) ptk);
    (destruct project as [p|];
     [destruct (truthy (Some p)) | change (truthy None) with false]);
    cbn [negb andb];
    try (cbn; discriminate);
    (cbn; intros [= <-]; split; reflexivity).
Qed.

(** X8. Without a project token, [getCurrentMember] makes its call on the
    ":project_id" template whether or not it was given an id: it has no
    check of its own, and the placeholder is bound exactly when the id
    was given. *)
Theorem getCurrentMember_does_not_check_its_id
        (client : APIClient) (projectId : option string) :
  authType client <> ptk ->
  exists c,
    dispatched (sdk_getCurrentMember (projects client) projectId) = Some c /\
    (forall h,
       fst (exec h (sdk_getCurrentMember (projects client) projectId))
       = [c]) /\
    c = client_get "/v1/projects/:project_id/members/@me"
          [("project_id", js_opt projectId)] /\
    has_segment "@this" (call_path c) = false /\
    (placeholders_bound c = true <-> projectId <> None).
Proof.
  intros Hk. apply not_ptk in Hk. step_gate. rewrite Hk.
  eexists. split; [reflexivity|].
  split; [intros h; one_call|].
  split; [reflexivity|].
  split; [reflexivity|].
  destruct projectId; cbn; split; congruence.
Qed.


(** X15. The two branches of an operation that branches on the project
    id make the same call but for the project: the template without an id
    is the one with an id with "@this" for ":project_id", and the mapping
    without an id is the one with an id less its "project_id" entry. *)
Theorem branches_differ_in_project_only
        (client client' : APIClient) (op : ScopedOp) (p : string)
        (c c' : ClientCall) :
  branches_on_project op = true ->
  p <> "" ->
  dispatched (invoke client op (Some p)) = Some c ->
  dispatched (invoke client' op None) = Some c' ->
  call_path c' = this_variant (call_path c) /\
  call_params c' = without_project_id (call_params c) /\
  call_method c' = call_method c /\
  call_body c' = call_body c.
Proof.
  intros Hop Hp.
  destruct op; try discriminate Hop; step_gate;
    rewrite (truthy_supplied p Hp); change (truthy None) with false;
    rewrite ?andb_false_r; cbn [negb andb];
    destruct (AuthType_eqb (authType client') ptk); cbn [negb andb];
    try (cbn; intros _; discriminate);
    (cbn; intros [= <-] [= <-]; repeat split).
Qed.

(** * Further properties of the typed channels client *)

Lemma exec_await {Call : Type} (h : Call -> Result JsVal) (c : Call) :
  exec h (await c) = ([c], h c).
Proof. simpl. destruct (h c); reflexivity. Qed.

Ltac typed_cases stateDefinition eventsDefinition :=
  unfold selectChannel, publish, unstable_typedChannelsClient.delete,
         subscribeTokens, setState, patchState, validator_for;
  try destruct (event_schema eventsDefinition _) as [?s|];
  try destruct (schema stateDefinition) as [?z|];
  cbn [option_map typed_payload].

(** X10. Every call a typed method makes is on the channel that was
    selected, and no method makes more than one call. *)
Theorem typed_calls_stay_on_channel
        (stateDefinition : StateClientDefinition)
        (eventsDefinition : EventsClientDefinition) (channel : string)
        (op : TypedOp) (h : ChannelsCall -> Result JsVal) :
  length (fst (exec h (selectChannel stateDefinition eventsDefinition
                         channel op))) <= 1 /\
  forall c,
    In c (fst (exec h (selectChannel stateDefinition eventsDefinition
                         channel op))) ->
    channel_of c = channel.
Proof.
  destruct op; typed_cases stateDefinition eventsDefinition;
    try match goal with
        | |- context [parseAsync ?s ?v] => destruct (parseAsync s v)
        end;
    cbn [lift bind]; rewrite ?exec_await; cbn;
    (split; [lia | intros c Hc; try contradiction;
                   destruct Hc as [<- | []]; reflexivity]).
Qed.

(** A name the schemas object only inherits is found by the lookup and
    is no schema: [publish] then throws a TypeError and makes no call. *)
Example publish_inherited_name_throws :
  exec channels_ok
       (selectChannel sample_state_definition sample_events "room"
          (TypedPublish "toString" sample_tick))
  = ([], Err TypeError) /\
  validator_for sample_state_definition sample_events
                (TypedPublish "toString" sample_tick)
  = Some not_a_schema.
Proof. split; reflexivity. Qed.

(** X11. A payload its schema rejects is not sent: the method fails with
    the schema's error and makes no call.  The schema is the event's own
    for [publish], the state schema for [setState] and its [partial()]
    for [patchState]. *)
Theorem rejected_payload_is_not_sent
        (stateDefinition : StateClientDefinition)
        (eventsDefinition : EventsClientDefinition) (channel : string)
        (op : TypedOp) (s : Schema) (v : JsVal) (e : Exn)
        (h : ChannelsCall -> Result JsVal) :
  validator_for stateDefinition eventsDefinition op = Some s ->
  typed_payload op = Some v ->
  parseAsync s v = Err e ->
  exec h (selectChannel stateDefinition eventsDefinition channel op)
  = ([], Err e).
Proof.
  destruct op; typed_cases stateDefinition eventsDefinition;
    try discriminate;
    intros [= <-] [= <-] Hp; rewrite Hp; reflexivity.
Qed.

(** X12. A payload its schema accepts is sent as the schema returned it,
    not as it was given, in one call on the selected channel; [publish]
    and [setState] send it through the method they are named after. *)
Theorem accepted_payload_is_sent_parsed
        (stateDefinition : StateClientDefinition)
        (eventsDefinition : EventsClientDefinition) (channel : string)
        (op : TypedOp) (s : Schema) (v parsed : JsVal)
        (h : ChannelsCall -> Result JsVal) :
  validator_for stateDefinition eventsDefinition op = Some s ->
  typed_payload op = Some v ->
  parseAsync s v = Ok parsed ->
  exists c,
    exec h (selectChannel stateDefinition eventsDefinition channel op)
    = ([c], h c) /\
    payload_of c = Some parsed /\
    channel_of c = channel /\
    ((forall st, op <> TypedPatchState st) ->
     method_of c = typed_method op).
Proof.
  destruct op; typed_cases stateDefinition eventsDefinition;
    try discriminate;
    intros [= <-] [= <-] Hp; rewrite Hp; cbn [lift bind];
    eexists; (split; [apply exec_await|]); repeat split.
  intros Hno. exfalso. exact (Hno st eq_refl).
Qed.

(** X13. Where no schema applies (none was given, the schemas object has
    no member of the event's name, own or inherited, or the method takes
    no payload) the method makes its one call through
    the [hop.channels] method it is named after, with the payload as it
    was given. *)
Theorem unvalidated_payload_is_sent_as_given
        (stateDefinition : StateClientDefinition)
        (eventsDefinition : EventsClientDefinition) (channel : string)
        (op : TypedOp) (h : ChannelsCall -> Result JsVal) :
  validator_for stateDefinition eventsDefinition op = None ->
  exists c,
    exec h (selectChannel stateDefinition eventsDefinition channel op)
    = ([c], h c) /\
    method_of c = typed_method op /\
    payload_of c = typed_payload op /\
    channel_of c = channel.
Proof.
  destruct op; typed_cases stateDefinition eventsDefinition;
    try discriminate;
    intros _; eexists; (split; [apply exec_await|]); repeat split.
Qed.

(** * Instances of the further properties *)

Lemma gate_depends_on_kind_and_presence_witness :
  exists c,
    dispatched (invoke bearer_client (SecretsCreate "API_KEY" "s3cr3t")
                  (Some "project_123")) = Some c /\
    forall h,
      fst (exec h (invoke bearer_client (SecretsCreate "API_KEY" "s3cr3t")
                     (Some "project_123"))) = [c].
Proof.
  apply (proj2 (gate_depends_on_kind_and_presence bearer_client
                  (SecretsCreate "API_KEY" "s3cr3t") (Some "project_123")
                  (ex_intro _ sample_secret_url eq_refl))).
  right. reflexivity.
Defined.

Lemma empty_project_id_same_as_none_witness :
  invoke ptk_client (WebhooksDelete "webhook_1") (Some "")
  = invoke ptk_client (WebhooksDelete "webhook_1") None.
Proof.
  apply (empty_project_id_same_as_none ptk_client
           (WebhooksDelete "webhook_1")).
  right. reflexivity.
Defined.

Lemma registry_template_ignores_project_witness :
  has_segment ":project_id" "/v1/registry/images/:image/manifests" = false /\
  has_segment "@this" "/v1/registry/images/:image/manifests" = false /\
  assoc "project" [("image", JStr "app"); ("project", JStr "project_123")]
  = Some (JStr "project_123") /\
  assoc "project_id"
        [("image", JStr "app"); ("project", JStr "project_123")] = None /\
  (forall client' project' c',
     dispatched (invoke client' (RegistryImagesGetManifest "app") project')
     = Some c' ->
     call_path c' = "/v1/registry/images/:image/manifests").
Proof.
  apply (registry_template_ignores_project bearer_client
           (RegistryImagesGetManifest "app") (Some "project_123")
           (client_get "/v1/registry/images/:image/manifests"
              [("image", JStr "app"); ("project", JStr "project_123")]));
    reflexivity.
Defined.

Lemma delete_resolves_to_undefined_witness :
  exec (answer_with (JObj [("deleted", JBool true)]))
       (call_op ptk_client (Scoped (TokensDelete "ptkid_1")) None)
  = ([client_delete "/v1/projects/@this/tokens/:project_token_id"
        JUndefined [("project_token_id", JStr "ptkid_1")]],
     Ok JUndefined).
Proof.
  apply (delete_resolves_to_undefined ptk_client
           (Scoped (TokensDelete "ptkid_1")) None
           (client_delete "/v1/projects/@this/tokens/:project_token_id"
              JUndefined [("project_token_id", JStr "ptkid_1")])
           (answer_with (JObj [("deleted", JBool true)]))
           (JObj [("deleted", JBool true)]));
    reflexivity.
Defined.

Lemma nullish_answer_is_a_TypeError_witness :
  exec (answer_with JNull)
       (call_op bearer_client GetCurrentMember (Some "project_123"))
  = ([client_get "/v1/projects/:project_id/members/@me"
        [("project_id", JStr "project_123")]],
     Err TypeError).
Proof.
  apply (nullish_answer_is_a_TypeError bearer_client GetCurrentMember
           (Some "project_123") "project_member").
  - reflexivity.
  - reflexivity.
  - right. reflexivity.
Defined.

Lemma sdk_returns_field_witness :
  exec (answer_with images_fixture)
       (call_op ptk_client (Scoped RegistryImagesGetAll) None)
  = ([client_get "/v1/registry/images" [("project", JUndefined)]],
     Ok (JArr [JStr "registry/app"; JStr "registry/worker"])).
Proof.
  apply (sdk_returns_field ptk_client (Scoped RegistryImagesGetAll) None
           "images"
           (client_get "/v1/registry/images" [("project", JUndefined)])
           (answer_with images_fixture)
           [("images", JArr [JStr "registry/app"; JStr "registry/worker"])]);
    reflexivity.
Defined.

Lemma placeholders_are_bound_witness :
  placeholders_bound
    (client_patch "/v1/projects/:project_id/webhooks/:webhook_id"
       (JObj [("webhook_url", JUndefined); ("events", JUndefined)])
       [("project_id", JStr "project_123"); ("webhook_id", JStr "webhook_1")])
  = true /\
  extra_keys
    (client_patch "/v1/projects/:project_id/webhooks/:webhook_id"
       (JObj [("webhook_url", JUndefined); ("events", JUndefined)])
       [("project_id", JStr "project_123"); ("webhook_id", JStr "webhook_1")])
  = [].
Proof.
  apply (placeholders_are_bound bearer_client
           (WebhooksEdit "webhook_1" None None) (Some "project_123"));
    reflexivity.
Defined.

Lemma getCurrentMember_does_not_check_its_id_witness :
  exists c,
    dispatched (sdk_getCurrentMember (projects bearer_client) None)
    = Some c /\
    (forall h,
       fst (exec h (sdk_getCurrentMember (projects bearer_client) None))
       = [c]) /\
    c = client_get "/v1/projects/:project_id/members/@me"
          [("project_id", JUndefined)] /\
    has_segment "@this" (call_path c) = false /\
    (placeholders_bound c = true <-> @None string <> None).
Proof.
  apply (getCurrentMember_does_not_check_its_id bearer_client None).
  discriminate.
Defined.


Lemma branches_differ_in_project_only_witness :
  call_path sample_delete_without_id
  = this_variant (call_path sample_delete_with_id) /\
  call_params sample_delete_without_id
  = without_project_id (call_params sample_delete_with_id) /\
  call_method sample_delete_without_id = call_method sample_delete_with_id /\
  call_body sample_delete_without_id = call_body sample_delete_with_id.
Proof.
  apply (branches_differ_in_project_only bearer_client ptk_client
           (SecretsDelete "secret_1") "project_123"
           sample_delete_with_id sample_delete_without_id);
    first [reflexivity | discriminate].
Defined.

Lemma rejected_payload_is_not_sent_witness :
  exec channels_ok
       (selectChannel sample_state_definition sample_events "room"
          (TypedPublish "closed" sample_tick))
  = ([], Err ZodError).
Proof.
  apply (rejected_payload_is_not_sent sample_state_definition sample_events
           "room" (TypedPublish "closed" sample_tick) reject_all sample_tick);
    reflexivity.
Defined.

Lemma accepted_payload_is_sent_parsed_witness :
  exists c,
    exec channels_ok
         (selectChannel sample_state_definition sample_events "room"
            (TypedPublish "tick" sample_tick))
    = ([c], channels_ok c) /\
    payload_of c = Some (JObj [("count", JNum 1)]) /\
    channel_of c = "room" /\
    ((forall st, TypedPublish "tick" sample_tick <> TypedPatchState st) ->
     method_of c = publishMessage_m).
Proof.
  apply (accepted_payload_is_sent_parsed sample_state_definition
           sample_events "room" (TypedPublish "tick" sample_tick)
           count_only sample_tick (JObj [("count", JNum 1)]));
    reflexivity.
Defined.

Lemma unvalidated_payload_is_sent_as_given_witness :
  exists c,
    exec channels_ok
         (selectChannel sample_state_definition sample_events "room"
            (TypedPublish "opened" sample_tick))
    = ([c], channels_ok c) /\
    method_of c = publishMessage_m /\
    payload_of c = Some sample_tick /\
    channel_of c = "room".
Proof.
  apply (unvalidated_payload_is_sent_as_given sample_state_definition
           sample_events "room" (TypedPublish "opened" sample_tick)).
  reflexivity.
Defined.
